(** * webpack-utils.js: the configuration generator

    A shallow embedding of [webpack-utils.js].  The file builds one nested
    JavaScript object out of object and array literals, spreads, a few
    conditionals on [settings.mode] and three plugin instantiations.  Its
    effects are two reads of process state ([process.env.NODE_ENV],
    [process.cwd()]), three [console.log] calls and two places that can
    throw: the read of [argv['mode']] and the constructor of the copy plugin,
    which validates its options.

    - JavaScript values are a tree type [value]; plain objects keep their
      properties in insertion order, spread is written out ([object_literal]).
    - Regular-expression literals are kept as syntax trees with a matcher
      ([RegExp.test]).
    - Process state and the console are a [World] threaded through a small
      state-and-exception monad [M]. *)

From Stdlib Require Import String Ascii List Bool ZArith Lia.
Import ListNotations.
Local Open Scope string_scope.
Local Open Scope list_scope.

Set Implicit Arguments.
Set Warnings "-register-all".

(* ------------------------------------------------------------------------- *)
(** * Regular-expression literals *)

Module RegExp.

(** The fragment of the pattern syntax used by the literals of
    [loadSettings]: characters, concatenation, [a|b], [a?], groups and the
    end-of-input assertion [$]. *)
Inductive node : Type :=
| Empty
| Char (c : ascii)
| Seq (a b : node)
| Alt (a b : node)
| Opt (a : node)
| Group (a : node)
| AssertEnd.

(** A literal [/source/flags]; the only flag in use is [i]. *)
Record t : Type := Build { source : node; ignoreCase : bool }.

(** A run of literal characters. *)
Fixpoint lit (s : string) : node :=
  match s with
  | EmptyString => Empty
  | String c s' => Seq (Char c) (lit s')
  end.

(** [a|b|c|...] *)
Fixpoint alts (first : node) (rest : list node) : node :=
  match rest with
  | [] => first
  | r :: rest' => Alt first (alts r rest')
  end.

(** Canonicalisation of a character under the [i] flag: ASCII letters are
    compared in upper case, every other code unit is left alone. *)
Definition canonicalize (c : ascii) : ascii :=
  let n := nat_of_ascii c in
  if (97 <=? n)%nat && (n <=? 122)%nat then ascii_of_nat (n - 32) else c.

Definition char_eq (ic : bool) (x c : ascii) : bool :=
  if ic then Ascii.eqb (canonicalize x) (canonicalize c) else Ascii.eqb x c.

(** Backtracking matcher in continuation-passing style: [matches ic r s k]
    tries to match [r] at the start of [s] and hands the rest of the input
    to [k]. *)
Fixpoint matches (ic : bool) (r : node) (s : string) (k : string -> bool) : bool :=
  match r with
  | Empty => k s
  | Char c =>
      match s with
      | String x s' => char_eq ic x c && k s'
      | EmptyString => false
      end
  | Seq a b => matches ic a s (fun s' => matches ic b s' k)
  | Alt a b => matches ic a s k || matches ic b s k
  | Opt a => matches ic a s k || k s
  | Group a => matches ic a s k
  | AssertEnd =>
      match s with
      | EmptyString => k s
      | String _ _ => false
      end
  end.

(** Without the [g] and [y] flags a match may start at any index. *)
Fixpoint search (ic : bool) (r : node) (s : string) : bool :=
  matches ic r s (fun _ => true)
  || match s with
     | EmptyString => false
     | String _ s' => search ic r s'
     end.

(** [RegExp.prototype.test] *)
Definition test (re : t) (s : string) : bool :=
  search (ignoreCase re) (source re) s.

(** Printing a literal back to its source text. *)
Definition metachar (c : ascii) : bool :=
  existsb (Ascii.eqb c)
    ["."; "$"; "^"; "?"; "*"; "+"; "("; ")"; "["; "]"; "{"; "}"; "|"; "\"; "/"]%char.

Fixpoint show_node (r : node) : string :=
  match r with
  | Empty => ""
  | Char c => if metachar c then String "\" (String c "") else String c ""
  | Seq a b => show_node a ++ show_node b
  | Alt a b => show_node a ++ "|" ++ show_node b
  | Opt a => show_node a ++ "?"
  | Group a => "(" ++ show_node a ++ ")"
  | AssertEnd => "$"
  end.

Definition show (re : t) : string :=
  "/" ++ show_node (source re) ++ "/" ++ (if ignoreCase re then "i" else "").

End RegExp.

(* ------------------------------------------------------------------------- *)
(** * JavaScript values *)

(** The three plugin classes the file instantiates with [new]. *)
Inductive constructor : Type :=
| HtmlWebpackPlugin
| CopyPlugin
| Dotenv.

Inductive value : Type :=
| VUndefined
| VNull
| VBool (b : bool)
| VNum (n : Z)
| VStr (s : string)
| VRegExp (re : RegExp.t)
| VArray (elements : list value)
| VObject (props : list (string * value))
| VNew (c : constructor) (args : list value).

(** [Boolean(v)] *)
Definition truthy (v : value) : bool :=
  match v with
  | VUndefined | VNull => false
  | VBool b => b
  | VNum n => negb (n =? 0)%Z
  | VStr s => negb (s =? "")
  | VRegExp _ | VArray _ | VObject _ | VNew _ _ => true
  end.

(** [a || b] on values already evaluated; the callers below keep the
    short-circuit where the right operand can throw. *)
Definition or_else (a b : value) : value := if truthy a then a else b.

Fixpoint lookup (k : string) (props : list (string * value)) : option value :=
  match props with
  | [] => None
  | (k', v) :: rest => if k' =? k then Some v else lookup k rest
  end.

(** Writing a property: an existing key keeps its place and takes the new
    value, a new key goes to the end. *)
Fixpoint set_prop (k : string) (v : value) (props : list (string * value))
  : list (string * value) :=
  match props with
  | [] => [(k, v)]
  | (k', v') :: rest =>
      if k' =? k then (k', v) :: rest else (k', v') :: set_prop k v rest
  end.

(** Own enumerable string keys, in order.  Array indices are not needed:
    no array is ever spread into an object here. *)
Definition own_props (v : value) : list (string * value) :=
  match v with
  | VObject props => props
  | _ => []
  end.

Definition own_keys (v : value) : list string := map fst (own_props v).

(** [o.k] (or [o['k']]) on a value that is not [undefined] or [null]:
    a missing property reads as [undefined]. *)
Definition get (o : value) (k : string) : value :=
  match lookup k (own_props o) with
  | Some v => v
  | None => VUndefined
  end.

(** [o.hasOwnProperty('k')] for plain objects. *)
Definition has_own (o : value) (k : string) : bool :=
  match lookup k (own_props o) with
  | Some _ => true
  | None => false
  end.

(** The members of an object literal: [k: v] or [...v]. *)
Inductive member : Type :=
| Field (k : string) (v : value)
| Spread (v : value).

Definition add_member (acc : list (string * value)) (m : member)
  : list (string * value) :=
  match m with
  | Field k v => set_prop k v acc
  | Spread src => fold_left (fun acc' kv => set_prop (fst kv) (snd kv) acc') (own_props src) acc
  end.

(** [{ m1, m2, ... }]: members are added left to right. *)
Definition object_literal (members : list member) : value :=
  VObject (fold_left add_member members []).

(** [xs.filter(Boolean)] *)
Definition filter_Boolean (xs : list value) : list value := filter truthy xs.

(** [xs[i]] *)
Definition index (xs : value) (i : nat) : value :=
  match xs with
  | VArray l => nth i l VUndefined
  | _ => VUndefined
  end.

(** [v === 'literal'] *)
Definition strict_eq_str (v : value) (s : string) : bool :=
  match v with
  | VStr x => x =? s
  | _ => false
  end.

(* ------------------------------------------------------------------------- *)
(** * Types *)

(** [const BuildMode = { development: 'development', production: 'production' }] *)
Module BuildMode.
Definition development : string := "development".
Definition production : string := "production".
End BuildMode.

Record IBuildPaths : Type := {
  entryFile : string;
  outputPath : string;
  indexHtmlTemplate : string;
  devServerContentPath : string
}.

Record IFilesPatterns : Type := {
  dependenciesFiles : RegExp.t;
  sourceMapFiles : RegExp.t;
  javascriptFiles : RegExp.t;
  typescriptFiles : RegExp.t;
  cssFiles : RegExp.t;
  imageFiles : RegExp.t;
  fontFiles : RegExp.t;
  wasmFiles : RegExp.t;
  unityFiles : RegExp.t
}.

Record CopyInstruction : Type := {
  to : string;
  from : string
}.

(** [mode] is kept as the string it is in the source: the builders compare
    it with the two [BuildMode] literals and nothing else. *)
Record ISettings : Type := {
  mode : string;
  paths : IBuildPaths;
  patterns : IFilesPatterns;
  copyExistingFiles : option (list CopyInstruction)
}.

Definition value_of_CopyInstruction (c : CopyInstruction) : value :=
  VObject [("to", VStr (to c)); ("from", VStr (from c))].

(* ------------------------------------------------------------------------- *)
(** * Process state, console and exceptions *)

Inductive Error : Type :=
| TypeError (message : string)
| ValidationError (message : string).

(** What a [console.log] call was given. *)
Inductive LogRecord : Type :=
| LogArguments (env argv node_env : value)
| LogSettings (settings : ISettings)
| LogWebpackOutput.

(** A world is the state of a process that has a working directory:
    [process.cwd()] failing because the directory was removed while the
    process runs is not part of it. *)
Record World : Type := {
  NODE_ENV : option string;       (* process.env.NODE_ENV *)
  cwd : string;                   (* process.cwd() *)
  console : list LogRecord        (* lines written so far, oldest first *)
}.

Inductive Completion (A : Type) : Type :=
| Normal (a : A)
| Throw (e : Error).
Arguments Throw {A} e.

Definition M (A : Type) : Type := World -> Completion A * World.

Definition ret {A} (a : A) : M A := fun w => (Normal a, w).

Definition bind {A B} (c : M A) (f : A -> M B) : M B :=
  fun w =>
    match c w with
    | (Normal a, w') => f a w'
    | (Throw e, w') => (Throw e, w')
    end.

Definition throw {A} (e : Error) : M A := fun w => (Throw e, w).

Declare Scope js_scope.
Delimit Scope js_scope with js.
Notation "x <- c1 ;; c2" := (bind c1 (fun x => c2))
  (at level 61, c1 at next level, right associativity) : js_scope.
Notation "c1 ;; c2" := (bind c1 (fun _ => c2))
  (at level 61, right associativity) : js_scope.
Local Open Scope js_scope.

Definition console_log (r : LogRecord) : M unit :=
  fun w => (Normal tt,
            {| NODE_ENV := NODE_ENV w; cwd := cwd w; console := console w ++ [r] |}).

(** [process.env.NODE_ENV]: a string when the variable is set, else
    [undefined]. *)
Definition process_env_NODE_ENV : M value :=
  fun w => (Normal (match NODE_ENV w with Some s => VStr s | None => VUndefined end), w).

(** [process.cwd()], in a process that has a working directory. *)
Definition process_cwd : M string := fun w => (Normal (cwd w), w).

(** A computation that touches no process state. *)
Definition completion {A} (c : Completion A) : M A := fun w => (c, w).

(** [o[k]]: reading a property of [undefined] or [null] throws. *)
Definition get_member (o : value) (k : string) : M value :=
  match o with
  | VUndefined | VNull => throw (TypeError "Cannot read properties of undefined or null")
  | _ => ret (get o k)
  end.

(** ** Plugin constructors *)

(** The options schema [new CopyPlugin] checks, as far as an array of
    [CopyInstruction] can violate it: [patterns] has at least one entry and
    every [from] is a non-empty string. *)
Definition CopyPlugin_accepts (patterns : list CopyInstruction) : bool :=
  negb (length patterns =? 0)%nat
  && forallb (fun instruction => negb (from instruction =? "")) patterns.

(** [new CopyPlugin({ patterns })]: the constructor validates its options
    and throws when they do not match the schema.  The constructors of
    [HtmlWebpackPlugin] and [Dotenv] only store their options. *)
Definition new_CopyPlugin (patterns : list CopyInstruction) : Completion value :=
  if CopyPlugin_accepts patterns then
    Normal (VNew CopyPlugin [
      VObject [("patterns", VArray (map value_of_CopyInstruction patterns))]])
  else
    Throw (ValidationError "Invalid options object. Copy Plugin has been initialized using an options object that does not match the API schema.").

(* ------------------------------------------------------------------------- *)
(** * The generator *)

Section WebpackUtils.

(** [path.join] of Node's [path] module, which the file imports and only
    applies to [process.cwd()] and a fixed segment. *)
Variable path_join : string -> string -> string.

(** ** Settings *)

(** The nine pattern literals of [loadSettings]. *)
Definition loadSettings_patterns : IFilesPatterns :=
  let dot_ext (body : RegExp.node) := RegExp.Seq (RegExp.Char ".") (RegExp.Seq body RegExp.AssertEnd) in
  let jsx (stem : string) := RegExp.Seq (RegExp.lit stem) (RegExp.Opt (RegExp.Char "x")) in
  {| (* /node_modules/ *)
     dependenciesFiles := RegExp.Build (RegExp.lit "node_modules") false;
     (* /\.jsx?$/i *)
     sourceMapFiles := RegExp.Build (dot_ext (jsx "js")) true;
     (* /\.jsx?$/i *)
     javascriptFiles := RegExp.Build (dot_ext (jsx "js")) true;
     (* /\.tsx?$/i *)
     typescriptFiles := RegExp.Build (dot_ext (jsx "ts")) true;
     (* /\.css$/i *)
     cssFiles := RegExp.Build (dot_ext (RegExp.lit "css")) true;
     (* /\.(png|svg|jpg|jpeg|gif)$/i *)
     imageFiles :=
       RegExp.Build
         (dot_ext (RegExp.Group (RegExp.alts (RegExp.lit "png")
            [RegExp.lit "svg"; RegExp.lit "jpg"; RegExp.lit "jpeg"; RegExp.lit "gif"]))) true;
     (* /\.(woff|woff2|eot|ttf|otf)$/i *)
     fontFiles :=
       RegExp.Build
         (dot_ext (RegExp.Group (RegExp.alts (RegExp.lit "woff")
            [RegExp.lit "woff2"; RegExp.lit "eot"; RegExp.lit "ttf"; RegExp.lit "otf"]))) true;
     (* /\.wasm$/i *)
     wasmFiles := RegExp.Build (dot_ext (RegExp.lit "wasm")) true;
     (* /\.unity$/i *)
     unityFiles := RegExp.Build (dot_ext (RegExp.lit "unity")) true |}.

Definition loadSettings (env argv : value) : M ISettings :=
  node_env <- process_env_NODE_ENV ;;
  console_log (LogArguments env argv node_env) ;;
  (* process.env.NODE_ENV || argv['mode'] || 'development' *)
  node_env <- process_env_NODE_ENV ;;
  environment <-
    (if truthy node_env then ret node_env
     else
       argv_mode <- get_member argv "mode" ;;
       ret (or_else argv_mode (VStr "development"))) ;;
  basePath <- process_cwd ;;
  let srcPath := path_join basePath "src" in
  let distPath := path_join basePath "dist" in
  let settings :=
    {| mode := if strict_eq_str environment "production"
               then BuildMode.production else BuildMode.development;
       paths := {| entryFile := path_join srcPath "index.ts";
                   outputPath := distPath;
                   indexHtmlTemplate := path_join srcPath "index.html";
                   devServerContentPath := distPath |};
       patterns := loadSettings_patterns;
       copyExistingFiles := None |} in
  console_log (LogSettings settings) ;;
  ret settings.

(** ** Webpack configurations *)

Definition configureBuildMode (settings : ISettings) : value :=
  VObject [("mode", VStr (mode settings))].

Definition configureAppEntryPoints (settings : ISettings) : value :=
  VObject [("entry", VStr (entryFile (paths settings)))].

Definition configureBundleOutput (settings : ISettings) : value :=
  VObject [
    ("output", VObject [
      ("path", VStr (outputPath (paths settings)));
      ("filename", VStr "bundle.js");
      ("publicPath", VStr "/")])].

Definition configureNodeJsBasicPolyfills (settings : ISettings) : value :=
  VObject [
    ("node", VObject [
      ("global", VBool true);
      ("__filename", VBool false);
      ("__dirname", VBool false)])].

Definition configureSupportedFileExtensions (settings : ISettings) : value :=
  VObject [("extensions", VArray [VStr ".ts"; VStr ".tsx"; VStr "..."])].

Definition configureNodeJsFallbacks (settings : ISettings) : value :=
  VObject [
    ("fallback", VObject [
      ("fs", VBool false);
      ("path", VBool false)])].

Definition configureSourceMapsGeneration (settings : ISettings) : value :=
  VObject [
    ("devtool", if mode settings =? BuildMode.development
                then VStr "inline-cheap-module-source-map" else VBool false)].

Definition configureDevelopmentServer (settings : ISettings) : value :=
  if negb (mode settings =? BuildMode.development) then
    VObject [("devServer", VUndefined)]
  else
    VObject [
      ("devServer", VObject [
        ("contentBase", VStr (devServerContentPath (paths settings)));
        ("compress", VBool true);
        ("port", VNum 9000);
        ("https", VBool true);
        ("open", VBool true);
        ("writeToDisk", VBool true);
        ("historyApiFallback", VBool true)])].

Definition configureLogLevel (settings : ISettings) : value :=
  VObject [("stats", VStr "normal")].

(** ** Webpack loaders *)

Definition createSourceMapsLoader (settings : ISettings) : list value :=
  [ VObject [
      ("test", VRegExp (sourceMapFiles (patterns settings)));
      ("exclude", VRegExp (dependenciesFiles (patterns settings)));
      ("enforce", VStr "pre");
      ("use", VArray [VStr "source-map-loader"])] ].

Definition createLanguageLoader (settings : ISettings) : list value :=
  [ VObject [
      ("test", VRegExp (javascriptFiles (patterns settings)));
      ("exclude", VRegExp (dependenciesFiles (patterns settings)));
      ("use", VArray [
        VObject [
          ("loader", VStr "babel-loader");
          ("options", VObject [
            ("targets", VStr "defaults");
            ("sourceMaps", VBool (mode settings =? BuildMode.development));
            ("presets", VArray [VStr "@babel/preset-env"]);
            ("plugins", VArray [VStr "@babel/plugin-transform-runtime"])])]])];
    VObject [
      ("test", VRegExp (typescriptFiles (patterns settings)));
      ("exclude", VRegExp (dependenciesFiles (patterns settings)));
      ("use", VArray [
        VObject [
          ("loader", VStr "babel-loader");
          ("options", VObject [
            ("targets", VStr "defaults");
            ("sourceMaps", VBool (mode settings =? BuildMode.development));
            ("presets", VArray [
              VStr "@babel/preset-env";
              VArray [
                VStr "@babel/preset-react";
                VObject [
                  ("runtime", VStr "automatic");
                  ("development", VBool (mode settings =? BuildMode.development))]];
              VStr "@babel/preset-typescript"]);
            ("plugins", VArray [
              VStr "@babel/plugin-transform-runtime";
              VStr "@babel/plugin-proposal-class-properties"])])];
        VObject [
          ("loader", VStr "astroturf/loader");
          ("options", VObject [("extension", VStr ".module.css")])]])] ].

Definition createStylesLoader (settings : ISettings) : list value :=
  [ VObject [
      ("test", VRegExp (cssFiles (patterns settings)));
      ("use", VArray [
        VStr "style-loader";
        VStr "css-loader";
        VObject [
          ("loader", VStr "postcss-loader");
          ("options", VObject [
            ("postcssOptions", VObject [
              ("plugins", VArray [
                VStr "postcss-import";
                VStr "tailwindcss/nesting";
                VArray [
                  VStr "tailwindcss";
                  VObject [
                    ("purge", VObject [
                      ("enabled", VBool (mode settings =? BuildMode.production));
                      ("content", VArray [
                        VStr "./src/**/*.html";
                        VStr "./src/**/*.ts";
                        VStr "./src/**/*.tsx"])])]];
                VArray [
                  VStr "postcss-preset-env";
                  VObject [
                    ("stage", VNum 3);
                    ("features", VObject [("nesting-rules", VBool false)])]]])])])]])] ].

Definition createImagesLoader (settings : ISettings) : list value :=
  [ VObject [
      ("test", VRegExp (imageFiles (patterns settings)));
      ("type", VStr "asset/resource")] ].

Definition createFontsLoader (settings : ISettings) : list value :=
  [ VObject [
      ("test", VRegExp (fontFiles (patterns settings)));
      ("type", VStr "asset/resource")] ].

Definition createWasmLoader (settings : ISettings) : list value :=
  [ VObject [
      ("test", VRegExp (wasmFiles (patterns settings)));
      ("type", VStr "asset/resource")] ].

Definition createUnityLoader (settings : ISettings) : list value :=
  [ VObject [
      ("test", VRegExp (unityFiles (patterns settings)));
      ("type", VStr "asset/resource")] ].

(** [rules.push(...more)] on the local array [rules]. *)
Definition push (rules more : list value) : list value := rules ++ more.

Definition configureLoaders (settings : ISettings) : value :=
  let rules := [] in
  let rules := push rules (createStylesLoader settings) in
  let rules := push rules (createLanguageLoader settings) in
  let rules := push rules (createImagesLoader settings) in
  let rules := push rules (createFontsLoader settings) in
  let rules := push rules (createWasmLoader settings) in
  let rules := push rules (createUnityLoader settings) in
  VObject [
    ("module", VObject [
      ("rules", VArray (
        (if mode settings =? BuildMode.development
         then createSourceMapsLoader settings else [])
        ++ [ VObject [("oneOf", VArray rules)] ]))])].

(** ** Webpack plugins *)

Definition createHtmlBundleInjectionPlugin (settings : ISettings) : value :=
  VNew HtmlWebpackPlugin [
    VObject [("template", VStr (indexHtmlTemplate (paths settings)))]].

Definition createEnvironmentVariablesPlugin (settings : ISettings) : value :=
  VNew Dotenv [
    VObject [
      ("path", VStr ("./.env." ++ mode settings));
      ("systemvars", VBool true)]].

Definition createFileCopyPlugin (settings : ISettings) : Completion value :=
  match copyExistingFiles settings with
  | None => Normal VUndefined                   (* !settings.copyExistingFiles *)
  | Some instructions =>
      if (length instructions =? 0)%nat then Normal VUndefined
      else new_CopyPlugin instructions
  end.

(** The three array elements are evaluated in order; only the last call can
    throw. *)
Definition configurePlugins (settings : ISettings) : Completion value :=
  let environmentVariablesPlugin := createEnvironmentVariablesPlugin settings in
  let htmlBundleInjectionPlugin := createHtmlBundleInjectionPlugin settings in
  match createFileCopyPlugin settings with
  | Throw e => Throw e
  | Normal fileCopyPlugin =>
      Normal (VObject [
        ("plugins", VArray (filter_Boolean [
          environmentVariablesPlugin;
          htmlBundleInjectionPlugin;
          fileCopyPlugin]))])
  end.

(** ** Main configuration builder *)

(** The members of the object literal the aggregator returns, in source
    order.  [plugins] is what the call [configurePlugins(settings)] returned:
    it is the one operand of the literal whose evaluation can throw. *)
Definition buildWebpackConfiguration_members (settings : ISettings) (plugins : value)
  : list member :=
  [ Spread (configureBuildMode settings);
    Spread (configureAppEntryPoints settings);
    Spread (configureBundleOutput settings);
    Spread (configureNodeJsBasicPolyfills settings);
    Field "resolve" (object_literal [
      Spread (configureSupportedFileExtensions settings);
      Spread (configureNodeJsFallbacks settings)]);
    Spread (configureLoaders settings);
    Spread (configureSourceMapsGeneration settings);
    Spread (configureDevelopmentServer settings);
    Spread plugins;
    Spread (configureLogLevel settings) ].

(** The banner is logged first.  Of the operands of the literal only
    [configurePlugins(settings)] can throw and none has an effect, so the
    outcome is that of evaluating them in source order. *)
Definition buildWebpackConfiguration (settings : ISettings) : M value :=
  console_log LogWebpackOutput ;;
  plugins <- completion (configurePlugins settings) ;;
  ret (object_literal (buildWebpackConfiguration_members settings plugins)).

(** ** Main export *)

Definition getBasicTypeScriptReactWebAppConfiguration (env argv : value) : M value :=
  settings <- loadSettings env argv ;;
  buildWebpackConfiguration settings.

End WebpackUtils.

(* ------------------------------------------------------------------------- *)
(** * How the bundler reads the configuration *)

Module Bundler.

(** Modelled from the spec: a rule is "a regular-expression test against a
    file path" plus "an exclusion set"; the engine that evaluates them is
    the external bundler.  A condition given as a regular expression holds
    of a path when the expression matches it. *)
Definition condition (c : value) (path : string) : bool :=
  match c with
  | VRegExp re => RegExp.test re path
  | _ => false
  end.

(** Modelled from the spec: a rule applies to a path when its [test], if it
    has one, matches and its [exclude], if it has one, does not. *)
Definition rule_applies (rule : value) (path : string) : bool :=
  (if has_own rule "test" then condition (get rule "test") path else true)
  && negb (if has_own rule "exclude" then condition (get rule "exclude") path else false).

(** Modelled from the spec: inside a mutually-exclusive set the rules are
    "an ordered sequence of matcher/handler pairs evaluated until the first
    match". *)
Definition first_match (rules : list value) (path : string) : option value :=
  find (fun r => rule_applies r path) rules.

(** Modelled from the spec: the rules that claim a path.  Top-level rules
    apply independently of one another, in order; a rule that carries a
    [oneOf] set contributes the first rule of the set that applies. *)
Definition claiming_rules (rules : list value) (path : string) : list value :=
  flat_map
    (fun r =>
       if rule_applies r path then
         if has_own r "oneOf" then
           match get r "oneOf" with
           | VArray set =>
               match first_match set path with
               | Some r' => [r']
               | None => []
               end
           | _ => []
           end
         else [r]
       else [])
    rules.

(** Modelled from the spec: in [resolve.extensions] the entry ['...'] stands
    for "the bundler's built-in default set". *)
Definition expand_extensions (defaults : list string) (extensions : value) : list string :=
  match extensions with
  | VArray entries =>
      flat_map
        (fun e =>
           match e with
           | VStr s => if s =? "..." then defaults else [s]
           | _ => []
           end)
        entries
  | _ => []
  end.

End Bundler.

(* ------------------------------------------------------------------------- *)
(** * Vocabulary of the statements *)

(** What a computation returns when started in a given world. *)
Definition result {A} (c : M A) (w : World) : Completion A := fst (c w).

(** The world a computation leaves behind. *)
Definition world_after {A} (c : M A) (w : World) : World := snd (c w).

(** Reading a value along a path of property names and array indices. *)
Inductive step : Type :=
| Key (k : string)
| Idx (i : nat).

Fixpoint at_path (v : value) (p : list step) : value :=
  match p with
  | [] => v
  | Key k :: p' => at_path (get v k) p'
  | Idx i :: p' => at_path (index v i) p'
  end.

(** The slices the aggregator merges at top level, in source order; the
    [resolve] member is the slice of the literal itself, [plugins] the slice
    [configurePlugins] returned. *)
Definition top_level_slices (settings : ISettings) (plugins : value) : list value :=
  map (fun m => match m with
                | Spread v => v
                | Field k v => VObject [(k, v)]
                end)
      (buildWebpackConfiguration_members settings plugins).

(** The settings carry copy instructions that [new CopyPlugin] refuses. *)
Definition copy_instructions_rejected (settings : ISettings) : bool :=
  match copyExistingFiles settings with
  | Some (first :: rest) => negb (CopyPlugin_accepts (first :: rest))
  | _ => false
  end.

(** The two slices merged under [resolve]. *)
Definition resolve_slices (settings : ISettings) : list value :=
  [ configureSupportedFileExtensions settings; configureNodeJsFallbacks settings ].

Definition disjoint (xs ys : list string) : Prop :=
  forall k, In k xs -> ~ In k ys.

(** A rule that runs the dependency source-map loader. *)
Definition is_source_map_rule (rule : value) : bool :=
  match get rule "use" with
  | VArray loaders => existsb (fun l => strict_eq_str l "source-map-loader") loaders
  | _ => false
  end.

(** [sub] occurs somewhere in [s]. *)
Definition occurs_in (sub s : string) : Prop :=
  exists before after, s = (before ++ sub ++ after)%string.

(** The elements of an array value. *)
Definition elements (v : value) : list value :=
  match v with
  | VArray l => l
  | _ => []
  end.

(** [config.module.rules] *)
Definition module_rules (config : value) : list value :=
  elements (at_path config [Key "module"; Key "rules"]).

(** The rules that sit inside a [oneOf] set of [config.module.rules]. *)
Definition exclusive_rules (config : value) : list value :=
  flat_map (fun r => elements (get r "oneOf")) (module_rules config).

(** ** Sample inputs *)

(** A stand-in for [path.join] on an already normalised POSIX directory. *)
Definition posix_join (dir segment : string) : string :=
  (dir ++ "/" ++ segment)%string.

Definition sample_world (node_env : option string) : World :=
  {| NODE_ENV := node_env; cwd := "/srv/app"; console := [] |}.

Definition sample_settings (m : string) (copy : option (list CopyInstruction)) : ISettings :=
  {| mode := m;
     paths := {| entryFile := "/srv/app/src/index.ts";
                 outputPath := "/srv/app/dist";
                 indexHtmlTemplate := "/srv/app/src/index.html";
                 devServerContentPath := "/srv/app/dist" |};
     patterns := loadSettings_patterns;
     copyExistingFiles := copy |}.

(** ** File extensions *)

(** Equality of strings up to the case of ASCII letters, the comparison the
    [i] flag makes. *)
Fixpoint string_eq_ci (a b : string) : bool :=
  match a, b with
  | EmptyString, EmptyString => true
  | String x a', String y b' => RegExp.char_eq true x y && string_eq_ci a' b'
  | _, _ => false
  end.

(** [path] ends in [ext], letter case aside. *)
Definition ends_with_ci (ext path : string) : Prop :=
  exists stem tail, path = (stem ++ tail)%string /\ string_eq_ci tail ext = true.

Definition ends_with_any (exts : list string) (path : string) : Prop :=
  exists ext, In ext exts /\ ends_with_ci ext path.

(** What is left of [s] once the word [w] has been read off its front. *)
Fixpoint strip (ic : bool) (w s : string) : option string :=
  match w with
  | EmptyString => Some s
  | String c w' =>
      match s with
      | String x s' => if RegExp.char_eq ic x c then strip ic w' s' else None
      | EmptyString => None
      end
  end.

Fixpoint assertion_free (r : RegExp.node) : bool :=
  match r with
  | RegExp.Empty | RegExp.Char _ => true
  | RegExp.Seq a b | RegExp.Alt a b => assertion_free a && assertion_free b
  | RegExp.Opt a | RegExp.Group a => assertion_free a
  | RegExp.AssertEnd => false
  end.

(** The words a pattern without assertions spells, in the order the matcher
    tries them. *)
Fixpoint words (r : RegExp.node) : list string :=
  match r with
  | RegExp.Empty => [EmptyString]
  | RegExp.Char c => [String c EmptyString]
  | RegExp.Seq a b => flat_map (fun wa => map (append wa) (words b)) (words a)
  | RegExp.Alt a b => words a ++ words b
  | RegExp.Opt a => words a ++ [EmptyString]
  | RegExp.Group a => words a
  | RegExp.AssertEnd => []
  end.

Fixpoint suffixes (s : string) : list string :=
  s :: match s with
       | EmptyString => []
       | String _ s' => suffixes s'
       end.

(** One of the two extensions is, letter case aside, the end of the other:
    only then can one path end in both. *)
Definition ci_overlap (e1 e2 : string) : bool :=
  existsb (string_eq_ci e1) (suffixes e2) || existsb (string_eq_ci e2) (suffixes e1).

Definition ci_disjoint (exts1 exts2 : list string) : bool :=
  forallb (fun e1 => forallb (fun e2 => negb (ci_overlap e1 e2)) exts2) exts1.

(** The extensions the typedef of [IFilesPatterns] documents for each
    pattern. *)
Definition script_extensions : list string := [".js"; ".jsx"].
Definition typescript_extensions : list string := [".ts"; ".tsx"].
Definition css_extensions : list string := [".css"].
Definition image_extensions : list string := [".png"; ".svg"; ".jpg"; ".jpeg"; ".gif"].
Definition font_extensions : list string := [".woff"; ".woff2"; ".eot"; ".ttf"; ".otf"].
Definition wasm_extensions : list string := [".wasm"].
Definition unity_extensions : list string := [".unity"].

(** The extensions each rule of the [oneOf] set stands for, in the order of
    the set: styles, Javascript, Typescript, images, fonts, wasm, unity. *)
Definition category_extensions : list (list string) :=
  [ css_extensions; script_extensions; typescript_extensions; image_extensions;
    font_extensions; wasm_extensions; unity_extensions ].

Ltac by_development settings :=
  unfold BuildMode.development in *;
  destruct (String.eqb_spec (mode settings) "development");
  try congruence.

Ltac by_mode settings :=
  unfold BuildMode.development, BuildMode.production in *;
  destruct (String.eqb_spec (mode settings) "development");
  destruct (String.eqb_spec (mode settings) "production");
  try congruence.

(* ------------------------------------------------------------------------- *)
(** * Properties *)

Section Aggregator.

Variable settings : ISettings.

Lemma createFileCopyPlugin_outcome :
  match copyExistingFiles settings with
  | None | Some [] => createFileCopyPlugin settings = Normal VUndefined
  | Some (first :: rest) =>
      if CopyPlugin_accepts (first :: rest) then
        createFileCopyPlugin settings
        = Normal (VNew CopyPlugin [
                    VObject [("patterns",
                              VArray (map value_of_CopyInstruction (first :: rest)))]])
      else exists e, createFileCopyPlugin settings = Throw e
  end.
Proof.
  unfold createFileCopyPlugin, new_CopyPlugin.
  destruct (copyExistingFiles settings) as [[ | first rest] | ]; try reflexivity.
  cbn [length Nat.eqb].
  destruct (CopyPlugin_accepts (first :: rest)); [ reflexivity | eexists; reflexivity ].
Qed.

(** [configurePlugins] returns unless the copy instructions are refused, and
    what it returns is an object with the one key [plugins]. *)
Lemma configurePlugins_outcome :
  if copy_instructions_rejected settings then exists e, configurePlugins settings = Throw e
  else exists fileCopyPlugin,
      createFileCopyPlugin settings = Normal fileCopyPlugin
      /\ configurePlugins settings
         = Normal (VObject [
             ("plugins", VArray (filter_Boolean [
                createEnvironmentVariablesPlugin settings;
                createHtmlBundleInjectionPlugin settings;
                fileCopyPlugin]))]).
Proof.
  pose proof createFileCopyPlugin_outcome as H.
  unfold copy_instructions_rejected, configurePlugins.
  destruct (copyExistingFiles settings) as [[ | first rest] | ];
    try (rewrite H; eexists; split; reflexivity).
  destruct (CopyPlugin_accepts (first :: rest)); cbn [negb].
  - rewrite H. eexists. split; reflexivity.
  - destruct H as [e ->]. eexists. reflexivity.
Qed.

Lemma buildWebpackConfiguration_run (w : World) :
  buildWebpackConfiguration settings w
  = (match configurePlugins settings with
     | Normal plugins =>
         Normal (object_literal (buildWebpackConfiguration_members settings plugins))
     | Throw e => Throw e
     end,
     {| NODE_ENV := NODE_ENV w; cwd := cwd w; console := console w ++ [LogWebpackOutput] |}).
Proof.
  unfold buildWebpackConfiguration, bind, console_log, completion, ret.
  destruct (configurePlugins settings); reflexivity.
Qed.

Lemma buildWebpackConfiguration_logs (w : World) :
  world_after (buildWebpackConfiguration settings) w
  = {| NODE_ENV := NODE_ENV w; cwd := cwd w; console := console w ++ [LogWebpackOutput] |}.
Proof. unfold world_after. rewrite buildWebpackConfiguration_run. reflexivity. Qed.

(** The aggregator returns exactly when the copy instructions are not
    refused. *)
Lemma buildWebpackConfiguration_returns_iff (w : World) :
  (exists config, result (buildWebpackConfiguration settings) w = Normal config)
  <-> copy_instructions_rejected settings = false.
Proof.
  unfold result. rewrite buildWebpackConfiguration_run. cbn [fst].
  pose proof configurePlugins_outcome as H.
  destruct (copy_instructions_rejected settings).
  - destruct H as [e ->]. split; [ intros [config Hc]; discriminate Hc | discriminate ].
  - destruct H as [copy [_ ->]]. split; [ reflexivity | intros _; eexists; reflexivity ].
Qed.

Lemma buildWebpackConfiguration_throws (w : World) :
  copy_instructions_rejected settings = true ->
  exists e, result (buildWebpackConfiguration settings) w = Throw e.
Proof.
  intros Hrej. unfold result. rewrite buildWebpackConfiguration_run. cbn [fst].
  pose proof configurePlugins_outcome as H. rewrite Hrej in H.
  destruct H as [e ->]. exists e. reflexivity.
Qed.

(** A configuration the aggregator returned is the merge of the slices, with
    the plugin list [configurePlugins] returned. *)
Lemma buildWebpackConfiguration_normal (w : World) (config : value) :
  result (buildWebpackConfiguration settings) w = Normal config ->
  exists p,
    configurePlugins settings = Normal (VObject [("plugins", p)])
    /\ config = object_literal (buildWebpackConfiguration_members settings (VObject [("plugins", p)])).
Proof.
  unfold result. rewrite buildWebpackConfiguration_run. cbn [fst].
  pose proof configurePlugins_outcome as H.
  destruct (copy_instructions_rejected settings).
  - destruct H as [e ->]. discriminate.
  - destruct H as [copy [_ ->]]. intros Hc. injection Hc as <-.
    eexists. split; reflexivity.
Qed.

Variable p : value.

(** The merged object has the ten keys in source order. *)
Lemma configuration_keys :
  own_keys (object_literal (buildWebpackConfiguration_members settings (VObject [("plugins", p)])))
  = ["mode"; "entry"; "output"; "node"; "resolve"; "module"; "devtool";
     "devServer"; "plugins"; "stats"].
Proof.
  unfold buildWebpackConfiguration_members, configureDevelopmentServer.
  destruct (mode settings =? BuildMode.development); reflexivity.
Qed.

(** Every top-level slice reads back unchanged from the merged object. *)
Lemma configuration_get_slice (slice : value) (k : string) :
  In slice (top_level_slices settings (VObject [("plugins", p)])) ->
  In k (own_keys slice) ->
  get (object_literal (buildWebpackConfiguration_members settings (VObject [("plugins", p)]))) k = get slice k.
Proof.
  unfold top_level_slices, buildWebpackConfiguration_members, configureDevelopmentServer.
  destruct (mode settings =? BuildMode.development); simpl;
    intros Hs Hk;
    repeat (destruct Hs as [<- | Hs]; [ simpl in Hk; intuition (subst; reflexivity) | ]);
    contradiction.
Qed.

Lemma resolve_get_slice (slice : value) (k : string) :
  In slice (resolve_slices settings) ->
  In k (own_keys slice) ->
  get (get (object_literal (buildWebpackConfiguration_members settings (VObject [("plugins", p)]))) "resolve") k = get slice k.
Proof.
  unfold resolve_slices, buildWebpackConfiguration_members, configureDevelopmentServer.
  destruct (mode settings =? BuildMode.development); simpl;
    intros Hs Hk;
    repeat (destruct Hs as [<- | Hs]; [ simpl in Hk; intuition (subst; reflexivity) | ]);
    contradiction.
Qed.

Lemma configuration_plugins : get (object_literal (buildWebpackConfiguration_members settings (VObject [("plugins", p)]))) "plugins" = p.
Proof.
  rewrite (@configuration_get_slice (VObject [("plugins", p)]) "plugins");
    [ reflexivity | simpl; tauto | simpl; auto ].
Qed.

End Aggregator.

Ltac built Hret p Hplugins :=
  let H := fresh in
  pose proof (buildWebpackConfiguration_normal _ _ Hret) as H;
  destruct H as [p [Hplugins ->]].

(** ** The aggregator *)

(** C6: whenever the aggregator returns a configuration, the slices it
    merged have pairwise disjoint top-level keys (so have the two slices
    merged under [resolve]), and every key of every slice reads back from the
    merged configuration with the value its builder gave it: nothing is
    overwritten. *)
Theorem builders_contribute_disjoint_keys
    (settings : ISettings) (w : World) (config : value) :
  result (buildWebpackConfiguration settings) w = Normal config ->
  exists plugins,
    configurePlugins settings = Normal plugins
    /\ ForallOrdPairs (fun a b => disjoint (own_keys a) (own_keys b))
         (top_level_slices settings plugins)
    /\ ForallOrdPairs (fun a b => disjoint (own_keys a) (own_keys b))
         (resolve_slices settings)
    /\ (forall slice k,
        In slice (top_level_slices settings plugins) -> In k (own_keys slice) ->
        get config k = get slice k)
    /\ (forall slice k,
        In slice (resolve_slices settings) -> In k (own_keys slice) ->
        get (get config "resolve") k = get slice k).
Proof.
  intros Hret. built Hret p Hplugins. exists (VObject [("plugins", p)]).
  assert (Hdisj : forall xs ys : list string,
             forallb (fun k => negb (existsb (String.eqb k) ys)) xs = true ->
             disjoint xs ys).
  { intros xs ys H k Hx Hy.
    rewrite forallb_forall in H. specialize (H k Hx).
    apply negb_true_iff in H.
    assert (existsb (String.eqb k) ys = true) by
      (apply existsb_exists; exists k; split; [ exact Hy | apply String.eqb_refl ]).
    congruence. }
  split; [ exact Hplugins | split; [ | split; [ | split ] ] ].
  - unfold top_level_slices, buildWebpackConfiguration_members, configureDevelopmentServer.
    destruct (mode settings =? BuildMode.development); simpl;
      repeat (constructor; [ repeat (constructor; [ apply Hdisj; reflexivity | ]); constructor | ]);
      constructor.
  - unfold resolve_slices.
    repeat (constructor; [ repeat (constructor; [ apply Hdisj; reflexivity | ]); constructor | ]);
      constructor.
  - intros slice k. apply configuration_get_slice.
  - intros slice k. apply resolve_get_slice.
Qed.

(** C7: the outcome of the aggregator is a function of the settings record
    alone: it is the same in any two worlds, in particular when the
    aggregator is invoked a second time in the world left by the first
    invocation; it is a configuration unless the copy instructions are
    refused; the only trace it leaves is one console line. *)
Theorem buildWebpackConfiguration_deterministic (settings : ISettings) (w1 w2 : World) :
  ((exists config, result (buildWebpackConfiguration settings) w1 = Normal config)
   <-> copy_instructions_rejected settings = false)
  /\ result (buildWebpackConfiguration settings) w1
     = result (buildWebpackConfiguration settings) w2
  /\ result (buildWebpackConfiguration settings)
            (world_after (buildWebpackConfiguration settings) w1)
     = result (buildWebpackConfiguration settings) w1
  /\ NODE_ENV (world_after (buildWebpackConfiguration settings) w1) = NODE_ENV w1
  /\ cwd (world_after (buildWebpackConfiguration settings) w1) = cwd w1.
Proof.
  split; [ | split; [ | split; [ | split ] ] ].
  - apply buildWebpackConfiguration_returns_iff.
  - unfold result. now rewrite !buildWebpackConfiguration_run.
  - unfold result. now rewrite !buildWebpackConfiguration_run.
  - now rewrite buildWebpackConfiguration_logs.
  - now rewrite buildWebpackConfiguration_logs.
Qed.

(** ** Sections of the configuration *)

(** C8: whatever the mode, [resolve.extensions] of a configuration the
    aggregator returned is ['.ts', '.tsx', '...']; once the bundler has put
    its default set in place of ['...'] the list holds [.ts], [.tsx] and
    every default extension. *)
Theorem extensions_include_typescript_and_defaults
    (settings : ISettings) (w : World) (defaults : list string) (config : value) :
  result (buildWebpackConfiguration settings) w = Normal config ->
  at_path config [Key "resolve"; Key "extensions"]
  = VArray [VStr ".ts"; VStr ".tsx"; VStr "..."]
  /\ let resolved :=
       Bundler.expand_extensions defaults (at_path config [Key "resolve"; Key "extensions"]) in
     In ".ts" resolved /\ In ".tsx" resolved /\ incl defaults resolved.
Proof.
  intros Hret. built Hret p Hplugins.
  assert (E : at_path (object_literal
                         (buildWebpackConfiguration_members settings (VObject [("plugins", p)])))
                [Key "resolve"; Key "extensions"]
              = VArray [VStr ".ts"; VStr ".tsx"; VStr "..."]).
  { simpl at_path.
    rewrite (@resolve_get_slice settings p (configureSupportedFileExtensions settings));
      [ reflexivity | simpl; auto | simpl; auto ]. }
  split; [ exact E | ].
  rewrite E. simpl. rewrite app_nil_r.
  split; [ auto | split; [ auto | ] ].
  intros x Hx. right. right. exact Hx.
Qed.

(** C9: whatever the mode, in a configuration the aggregator returned
    [resolve.fallback] switches [fs] and [path] off and [node] holds the
    literal flags [global: true], [__filename: false], [__dirname: false]. *)
Theorem node_fallbacks_and_polyfills_are_literal
    (settings : ISettings) (w : World) (config : value) :
  result (buildWebpackConfiguration settings) w = Normal config ->
  at_path config [Key "resolve"; Key "fallback"; Key "fs"] = VBool false
  /\ at_path config [Key "resolve"; Key "fallback"; Key "path"] = VBool false
  /\ own_keys (at_path config [Key "resolve"; Key "fallback"]) = ["fs"; "path"]
  /\ at_path config [Key "node"; Key "global"] = VBool true
  /\ at_path config [Key "node"; Key "__filename"] = VBool false
  /\ at_path config [Key "node"; Key "__dirname"] = VBool false.
Proof.
  intros Hret. built Hret p Hplugins.
  assert (F : get (get (object_literal
                          (buildWebpackConfiguration_members settings
                             (VObject [("plugins", p)]))) "resolve")
                  "fallback"
              = VObject [("fs", VBool false); ("path", VBool false)]).
  { rewrite (@resolve_get_slice settings p (configureNodeJsFallbacks settings));
      [ reflexivity | simpl; auto | simpl; auto ]. }
  assert (N : get (object_literal
                     (buildWebpackConfiguration_members settings (VObject [("plugins", p)])))
                  "node"
              = VObject [("global", VBool true); ("__filename", VBool false);
                         ("__dirname", VBool false)]).
  { rewrite (@configuration_get_slice settings p (configureNodeJsBasicPolyfills settings));
      [ reflexivity | simpl; auto | simpl; auto ]. }
  simpl at_path. rewrite F, N. repeat split.
Qed.

(** C2: in development mode a configuration the aggregator returned carries
    a [devServer] section with the content root of the settings,
    compression, port 9000, https, automatic browser launch, write-to-disk
    and history fallback, and a non-empty [devtool]; in production mode
    [devServer] reads as [undefined] and [devtool] is [false]. *)
Theorem development_server_only_in_development
    (settings : ISettings) (w : World) (config : value) :
  result (buildWebpackConfiguration settings) w = Normal config ->
  (mode settings = BuildMode.development ->
   let devServer := get config "devServer" in
   own_keys devServer
   = ["contentBase"; "compress"; "port"; "https"; "open"; "writeToDisk";
      "historyApiFallback"]
   /\ get devServer "contentBase" = VStr (devServerContentPath (paths settings))
   /\ get devServer "compress" = VBool true
   /\ get devServer "port" = VNum 9000
   /\ get devServer "https" = VBool true
   /\ get devServer "open" = VBool true
   /\ get devServer "writeToDisk" = VBool true
   /\ get devServer "historyApiFallback" = VBool true
   /\ get config "devtool" = VStr "inline-cheap-module-source-map"
   /\ truthy (get config "devtool") = true)
  /\ (mode settings = BuildMode.production ->
      get config "devServer" = VUndefined
      /\ get config "devtool" = VBool false).
Proof.
  intros Hret. built Hret p Hplugins.
  rewrite (@configuration_get_slice settings p (configureDevelopmentServer settings) "devServer").
  2: { simpl; tauto. }
  2: { unfold configureDevelopmentServer.
       destruct (mode settings =? BuildMode.development); simpl; auto. }
  rewrite (@configuration_get_slice settings p (configureSourceMapsGeneration settings) "devtool");
    [ | simpl; tauto | simpl; auto ].
  unfold configureDevelopmentServer, configureSourceMapsGeneration.
  split; intros Hmode; by_mode settings; repeat split.
Qed.

(** C3, as the code has it: with no copy instructions (the field absent, or
    an empty array) the aggregator returns and the plugin list is exactly the
    environment plugin and the HTML plugin, with no [undefined] entry left in
    it.  With at least one instruction the outcome is the constructor's: when
    [new CopyPlugin] accepts the instructions the copy plugin, built from
    them, follows as the third entry; when it refuses them the aggregator
    throws and there is no configuration. *)
Theorem copy_plugin_only_with_instructions (settings : ISettings) (w : World) :
  (copyExistingFiles settings = None \/ copyExistingFiles settings = Some [] ->
   exists config,
     result (buildWebpackConfiguration settings) w = Normal config
     /\ get config "plugins"
        = VArray [ createEnvironmentVariablesPlugin settings;
                   createHtmlBundleInjectionPlugin settings ])
  /\ (forall first rest,
      copyExistingFiles settings = Some (first :: rest) ->
      CopyPlugin_accepts (first :: rest) = true ->
      exists config,
        result (buildWebpackConfiguration settings) w = Normal config
        /\ get config "plugins"
           = VArray [ createEnvironmentVariablesPlugin settings;
                      createHtmlBundleInjectionPlugin settings;
                      VNew CopyPlugin [
                        VObject [("patterns",
                                  VArray (map value_of_CopyInstruction (first :: rest)))]] ])
  /\ (forall first rest,
      copyExistingFiles settings = Some (first :: rest) ->
      CopyPlugin_accepts (first :: rest) = false ->
      exists message,
        result (buildWebpackConfiguration settings) w = Throw (ValidationError message))
  /\ (exists environmentOptions htmlOptions,
      createEnvironmentVariablesPlugin settings = VNew Dotenv [environmentOptions]
      /\ createHtmlBundleInjectionPlugin settings = VNew HtmlWebpackPlugin [htmlOptions])
  /\ (forall config,
      result (buildWebpackConfiguration settings) w = Normal config ->
      Forall (fun plugin => exists c args, plugin = VNew c args)
             (elements (get config "plugins"))
      /\ (length (elements (get config "plugins")) = 2
          \/ length (elements (get config "plugins")) = 3)).
Proof.
  assert (Hrun : result (buildWebpackConfiguration settings) w
                 = match configurePlugins settings with
                   | Normal plugins =>
                       Normal (object_literal
                                 (buildWebpackConfiguration_members settings plugins))
                   | Throw e => Throw e
                   end).
  { unfold result. rewrite buildWebpackConfiguration_run. reflexivity. }
  rewrite Hrun. unfold configurePlugins, createFileCopyPlugin, new_CopyPlugin.
  split; [ | split; [ | split; [ | split ] ] ].
  - intros [H | H]; rewrite H; eexists; (split; [ reflexivity | ]);
      apply configuration_plugins.
  - intros first rest H Haccepts. rewrite H. cbn [length Nat.eqb]. rewrite Haccepts.
    eexists. split; [ reflexivity | ]. apply configuration_plugins.
  - intros first rest H Haccepts. rewrite H. cbn [length Nat.eqb]. rewrite Haccepts.
    eexists. reflexivity.
  - do 2 eexists. split; reflexivity.
  - intros config.
    destruct (copyExistingFiles settings) as [[ | first rest] | ].
    + intros Hc. injection Hc as <-. rewrite configuration_plugins. simpl.
      split; [ | auto ].
      repeat (constructor; [ do 2 eexists; reflexivity | ]); constructor.
    + cbn [length Nat.eqb]. destruct (CopyPlugin_accepts (first :: rest)); [ | discriminate ].
      intros Hc. injection Hc as <-. rewrite configuration_plugins. simpl.
      split; [ | auto ].
      repeat (constructor; [ do 2 eexists; reflexivity | ]); constructor.
    + intros Hc. injection Hc as <-. rewrite configuration_plugins. simpl.
      split; [ | auto ].
      repeat (constructor; [ do 2 eexists; reflexivity | ]); constructor.
Qed.

Lemma configuration_module_rules (settings : ISettings) (p : value) :
  module_rules (object_literal
                  (buildWebpackConfiguration_members settings (VObject [("plugins", p)])))
  = (if mode settings =? BuildMode.development then createSourceMapsLoader settings else [])
    ++ [ VObject [("oneOf",
                   VArray (createStylesLoader settings ++ createLanguageLoader settings
                           ++ createImagesLoader settings ++ createFontsLoader settings
                           ++ createWasmLoader settings ++ createUnityLoader settings))] ].
Proof.
  unfold module_rules. simpl at_path.
  rewrite (@configuration_get_slice settings p (configureLoaders settings) "module");
    [ reflexivity | simpl; tauto | simpl; auto ].
Qed.

Lemma configuration_exclusive_rules (settings : ISettings) (p : value) :
  exclusive_rules (object_literal
                     (buildWebpackConfiguration_members settings (VObject [("plugins", p)])))
  = createStylesLoader settings ++ createLanguageLoader settings
    ++ createImagesLoader settings ++ createFontsLoader settings
    ++ createWasmLoader settings ++ createUnityLoader settings.
Proof.
  unfold exclusive_rules. rewrite configuration_module_rules.
  destruct (mode settings =? BuildMode.development); reflexivity.
Qed.

(** C5: in a configuration the aggregator returned, the stylesheet rule (the
    one testing [patterns.cssFiles], first in the [oneOf] set) hands
    [tailwindcss] a [purge.enabled] flag that is [true] exactly when the mode
    is production. *)
Theorem tailwind_purge_iff_production
    (settings : ISettings) (w : World) (config : value) :
  result (buildWebpackConfiguration settings) w = Normal config ->
  exists stylesRule enabled,
    createStylesLoader settings = [stylesRule]
    /\ In stylesRule (exclusive_rules config)
    /\ get stylesRule "test" = VRegExp (cssFiles (patterns settings))
    /\ at_path stylesRule
         [Key "use"; Idx 2; Key "options"; Key "postcssOptions"; Key "plugins"; Idx 2; Idx 0]
       = VStr "tailwindcss"
    /\ at_path stylesRule
         [Key "use"; Idx 2; Key "options"; Key "postcssOptions"; Key "plugins"; Idx 2; Idx 1;
          Key "purge"; Key "enabled"]
       = VBool enabled
    /\ (enabled = true <-> mode settings = BuildMode.production).
Proof.
  intros Hret. built Hret p Hplugins.
  eexists. exists (mode settings =? BuildMode.production).
  split; [ reflexivity | ].
  split; [ rewrite configuration_exclusive_rules; left; reflexivity | ].
  split; [ reflexivity | ].
  split; [ reflexivity | ].
  split; [ reflexivity | ].
  apply String.eqb_eq.
Qed.

(** ** Module rules *)

Lemma claiming_rules_plain (r : value) (rules : list value) (path : string) :
  has_own r "oneOf" = false ->
  Bundler.claiming_rules (r :: rules) path
  = filter (fun r' => Bundler.rule_applies r' path) [r] ++ Bundler.claiming_rules rules path.
Proof.
  intros H. unfold Bundler.claiming_rules. cbn [flat_map filter]. rewrite H.
  destruct (Bundler.rule_applies r path); reflexivity.
Qed.

Lemma claiming_rules_oneOf (set : list value) (path : string) :
  Bundler.claiming_rules [VObject [("oneOf", VArray set)]] path
  = match Bundler.first_match set path with
    | Some r => [r]
    | None => []
    end.
Proof.
  unfold Bundler.claiming_rules. cbn [flat_map].
  change (Bundler.rule_applies (VObject [("oneOf", VArray set)]) path) with true.
  change (has_own (VObject [("oneOf", VArray set)]) "oneOf") with true.
  change (get (VObject [("oneOf", VArray set)]) "oneOf") with (VArray set).
  cbv iota. apply app_nil_r.
Qed.

(** C4: in a configuration the aggregator returned, a rule running the
    source-map loader is among [module.rules] exactly in development mode; it
    then is the first rule, and no rule of the [oneOf] set is such a rule;
    every other top-level rule is the [oneOf] wrapper, whose set holds the
    styles, language, images, fonts, wasm and unity rules in that order; so
    for any path the source-map rule applies on its own and at most one rule
    of the set, the first that applies, claims the path. *)
Theorem source_map_rule_first_and_outside_oneOf
    (settings : ISettings) (w : World) (config : value) :
  result (buildWebpackConfiguration settings) w = Normal config ->
  ((exists r, In r (module_rules config) /\ is_source_map_rule r = true)
   <-> mode settings = BuildMode.development)
  /\ (forall i r,
      nth_error (module_rules config) i = Some r -> is_source_map_rule r = true ->
      i = 0 /\ [r] = createSourceMapsLoader settings)
  /\ Forall (fun r => is_source_map_rule r = false) (exclusive_rules config)
  /\ (forall r,
      In r (module_rules config) -> is_source_map_rule r = false ->
      r = VObject [("oneOf", VArray (exclusive_rules config))])
  /\ exclusive_rules config
     = createStylesLoader settings ++ createLanguageLoader settings
       ++ createImagesLoader settings ++ createFontsLoader settings
       ++ createWasmLoader settings ++ createUnityLoader settings
  /\ (forall path,
      Bundler.claiming_rules (module_rules config) path
      = (if mode settings =? BuildMode.development
         then filter (fun r => Bundler.rule_applies r path) (createSourceMapsLoader settings)
         else [])
        ++ match Bundler.first_match (exclusive_rules config) path with
           | Some r => [r]
           | None => []
           end).
Proof.
  intros Hret. built Hret p Hplugins.
  rewrite configuration_exclusive_rules, configuration_module_rules.
  split; [ | split; [ | split; [ | split; [ | split ] ] ] ].
  - split.
    + intros [r [Hin Hr]]. by_development settings.
      simpl in Hin. destruct Hin as [<- | []]. discriminate Hr.
    + intros Hmode. by_development settings.
      eexists. split; [ left; reflexivity | reflexivity ].
  - intros i r Hnth Hr. by_development settings.
    + destruct i as [ | [ | i ] ]; simpl in Hnth.
      * injection Hnth as <-. split; reflexivity.
      * injection Hnth as <-. discriminate Hr.
      * destruct i; discriminate Hnth.
    + destruct i as [ | i ]; simpl in Hnth.
      * injection Hnth as <-. discriminate Hr.
      * destruct i; discriminate Hnth.
  - repeat constructor.
  - intros r Hin Hr. by_development settings; simpl in Hin.
    + destruct Hin as [<- | [<- | []]]; [ discriminate Hr | reflexivity ].
    + destruct Hin as [<- | []]. reflexivity.
  - reflexivity.
  - intros path. by_development settings.
    + unfold createSourceMapsLoader at 1. cbn [app].
      rewrite claiming_rules_plain by reflexivity.
      rewrite claiming_rules_oneOf. reflexivity.
    + cbn [app]. apply claiming_rules_oneOf.
Qed.

(** ** Matching file paths *)

Lemma search_unfold (ic : bool) (r : RegExp.node) (s : string) :
  RegExp.search ic r s
  = RegExp.matches ic r s (fun _ => true)
    || match s with
       | EmptyString => false
       | String _ s' => RegExp.search ic r s'
       end.
Proof. destruct s; reflexivity. Qed.

(** A case-sensitive run of literal characters matches exactly when the
    input starts with it. *)
Lemma matches_lit (p s : string) (k : string -> bool) :
  RegExp.matches false (RegExp.lit p) s k = true
  <-> exists rest, s = (p ++ rest)%string /\ k rest = true.
Proof.
  revert s k. induction p as [ | c p IH ]; intros s k; simpl.
  - split.
    + intros H. exists s. auto.
    + intros [rest [-> H]]. exact H.
  - destruct s as [ | x s ].
    + split; [ discriminate | intros [rest [H _]]; discriminate H ].
    + unfold RegExp.char_eq. rewrite andb_true_iff, IH, Ascii.eqb_eq. split.
      * intros [-> [rest [-> H]]]. exists rest. auto.
      * intros [rest [H Hk]]. injection H as -> ->. split; [ reflexivity | ].
        exists rest. auto.
Qed.

(** Searching for a case-sensitive literal finds it exactly when it occurs
    in the input. *)
Lemma search_lit (p s : string) :
  RegExp.search false (RegExp.lit p) s = true <-> occurs_in p s.
Proof.
  split.
  - induction s as [ | c s IH ]; rewrite search_unfold, orb_true_iff, matches_lit.
    + intros [[rest [H _]] | H]; [ | discriminate H ].
      exists ""%string, rest. exact H.
    + intros [[rest [H _]] | H].
      * exists ""%string, rest. exact H.
      * destruct (IH H) as [before [after ->]].
        exists (String c before), after. reflexivity.
  - intros [before [after ->]].
    induction before as [ | c before IH ]; rewrite search_unfold, orb_true_iff.
    + left. apply matches_lit. exists after. auto.
    + right. exact IH.
Qed.

(** A pattern that matches a whole suffix is found in every string that ends
    with that suffix. *)
Lemma search_suffix (ic : bool) (r : RegExp.node) (stem suffix : string) :
  RegExp.search ic r suffix = true ->
  RegExp.search ic r (stem ++ suffix) = true.
Proof.
  intros H. induction stem as [ | c stem IH ]; [ exact H | ].
  simpl append. rewrite search_unfold, IH. apply orb_true_r.
Qed.

Lemma rule_applies_test_exclude (test exclude : RegExp.t) (others : list (string * value))
    (path : string) :
  Bundler.rule_applies
    (VObject (("test", VRegExp test) :: ("exclude", VRegExp exclude) :: others)) path
  = RegExp.test test path && negb (RegExp.test exclude path).
Proof. reflexivity. Qed.

(** ** Settings *)

Lemma loadSettings_patterns_are_the_literals
    (path_join : string -> string -> string) (env argv : value) (w : World)
    (settings : ISettings) :
  result (loadSettings path_join env argv) w = Normal settings ->
  patterns settings = loadSettings_patterns.
Proof.
  unfold result, loadSettings, bind, process_env_NODE_ENV, console_log, process_cwd,
    get_member, ret, throw.
  cbn [fst snd NODE_ENV].
  destruct (NODE_ENV w) as [e | ]; cbn [truthy].
  - destruct (negb (e =? "")); [ cbn; intros H; injection H as <-; reflexivity | ].
    destruct argv; cbn; intros H; try discriminate H; injection H as <-; reflexivity.
  - destruct argv; cbn; intros H; try discriminate H; injection H as <-; reflexivity.
Qed.

(** C10: the source-map rule tests [patterns.sourceMapFiles] and excludes
    [patterns.dependenciesFiles]: a path the exclusion matches is never
    claimed by the rule, a path the test matches and the exclusion does not
    is.  With the patterns of [loadSettings] the exclusion is [/node_modules/]:
    no path in which [node_modules] occurs is claimed, while a [.js] or
    [.jsx] path without it is. *)
Theorem source_map_rule_excludes_dependencies (settings : ISettings) :
  exists rule,
    createSourceMapsLoader settings = [rule]
    /\ get rule "test" = VRegExp (sourceMapFiles (patterns settings))
    /\ get rule "exclude" = VRegExp (dependenciesFiles (patterns settings))
    /\ get rule "enforce" = VStr "pre"
    /\ (forall path,
        RegExp.test (dependenciesFiles (patterns settings)) path = true ->
        Bundler.rule_applies rule path = false)
    /\ (forall path,
        RegExp.test (sourceMapFiles (patterns settings)) path = true ->
        RegExp.test (dependenciesFiles (patterns settings)) path = false ->
        Bundler.rule_applies rule path = true)
    /\ (patterns settings = loadSettings_patterns ->
        RegExp.show (dependenciesFiles (patterns settings)) = "/node_modules/"
        /\ (forall path,
            occurs_in "node_modules" path -> Bundler.rule_applies rule path = false)
        /\ (forall stem extension,
            extension = ".js" \/ extension = ".jsx" ->
            ~ occurs_in "node_modules" (stem ++ extension) ->
            Bundler.rule_applies rule (stem ++ extension) = true))
    /\ (forall path_join env argv w loaded,
        result (loadSettings path_join env argv) w = Normal loaded ->
        patterns loaded = loadSettings_patterns).
Proof.
  eexists. split; [ reflexivity | ].
  split; [ reflexivity | ]. split; [ reflexivity | ]. split; [ reflexivity | ].
  split; [ | split; [ | split ] ].
  - intros path H. rewrite rule_applies_test_exclude, H. apply andb_false_r.
  - intros path Ht He. rewrite rule_applies_test_exclude, Ht, He. reflexivity.
  - intros ->. split; [ reflexivity | split ].
    + intros path H. rewrite rule_applies_test_exclude.
      replace (RegExp.test (dependenciesFiles loadSettings_patterns) path) with true;
        [ apply andb_false_r | ].
      symmetry. apply (search_lit "node_modules" path). exact H.
    + intros stem extension Hext Hfree. rewrite rule_applies_test_exclude.
      apply andb_true_iff. split.
      * apply search_suffix. destruct Hext as [-> | ->]; reflexivity.
      * apply negb_true_iff.
        destruct (RegExp.test (dependenciesFiles loadSettings_patterns) (stem ++ extension))
          eqn:E; [ | reflexivity ].
        exfalso. apply Hfree. apply (search_lit "node_modules"). exact E.
  - intros path_join env argv w loaded.
    apply loadSettings_patterns_are_the_literals.
Qed.

(** What [loadSettings] returns, for an [argv] that is an object. *)
Lemma loadSettings_returns
    (path_join : string -> string -> string) (env : value)
    (arguments : list (string * value)) (w : World) :
  result (loadSettings path_join env (VObject arguments)) w
  = Normal
      {| mode :=
           if strict_eq_str
                (or_else (match NODE_ENV w with Some e => VStr e | None => VUndefined end)
                   (or_else (get (VObject arguments) "mode") (VStr "development")))
                "production"
           then BuildMode.production else BuildMode.development;
         paths :=
           {| entryFile := path_join (path_join (cwd w) "src") "index.ts";
              outputPath := path_join (cwd w) "dist";
              indexHtmlTemplate := path_join (path_join (cwd w) "src") "index.html";
              devServerContentPath := path_join (cwd w) "dist" |};
         patterns := loadSettings_patterns;
         copyExistingFiles := None |}.
Proof.
  unfold result, loadSettings, bind, process_env_NODE_ENV, console_log, process_cwd,
    get_member, ret, or_else.
  cbn [fst snd NODE_ENV cwd].
  destruct (truthy match NODE_ENV w with Some e => VStr e | None => VUndefined end);
    reflexivity.
Qed.

(** Outside the typed domain: with [NODE_ENV] unset, an [argv] that is
    [undefined] makes the property read throw. *)
Lemma loadSettings_throws_without_argv
    (path_join : string -> string -> string) (env : value) (w : World) :
  NODE_ENV w = None ->
  exists e, result (loadSettings path_join env VUndefined) w = Throw e.
Proof.
  intros H. unfold result, loadSettings, bind, process_env_NODE_ENV, console_log.
  cbn [fst snd NODE_ENV]. rewrite H. cbn. eexists. reflexivity.
Qed.

(** The main export, unlike the aggregator, reads the process state. *)
Lemma main_export_depends_on_NODE_ENV :
  result (getBasicTypeScriptReactWebAppConfiguration posix_join VUndefined (VObject []))
         (sample_world None)
  <> result (getBasicTypeScriptReactWebAppConfiguration posix_join VUndefined (VObject []))
            (sample_world (Some "production")).
Proof. vm_compute. discriminate. Qed.

(** C1: for every [env] and every [argv] object the loader returns a settings
    record whose mode is one of the two build modes.  A non-empty [NODE_ENV]
    decides alone; otherwise a truthy [argv.mode] decides; otherwise the mode
    is development.  In each case the mode is production exactly when the
    deciding value is the string ['production'], and development for every
    other value. *)
Theorem loadSettings_mode_resolution
    (path_join : string -> string -> string) (env : value)
    (arguments : list (string * value)) (w : World) :
  let argv := VObject arguments in
  exists settings,
    result (loadSettings path_join env argv) w = Normal settings
    /\ (mode settings = BuildMode.production \/ mode settings = BuildMode.development)
    /\ (forall e,
        NODE_ENV w = Some e -> e <> "" ->
        (mode settings = BuildMode.production <-> e = "production"))
    /\ (NODE_ENV w = None \/ NODE_ENV w = Some "" ->
        truthy (get argv "mode") = true ->
        (mode settings = BuildMode.production <-> get argv "mode" = VStr "production"))
    /\ (NODE_ENV w = None \/ NODE_ENV w = Some "" ->
        truthy (get argv "mode") = false ->
        mode settings = BuildMode.development)
    /\ (NODE_ENV w = None -> lookup "mode" arguments = None ->
        mode settings = BuildMode.development).
Proof.
  intros argv. eexists. split; [ apply loadSettings_returns | ].
  cbn [mode]. fold argv.
  assert (Hne : BuildMode.development <> BuildMode.production) by discriminate.
  assert (Hstr : forall v, strict_eq_str v "production" = true <-> v = VStr "production").
  { intros v. destruct v; simpl; try (split; discriminate).
    rewrite String.eqb_eq. split; [ intros ->; reflexivity | intros H; injection H; auto ]. }
  assert (Hpick : forall v : value,
             (if strict_eq_str v "production"
              then BuildMode.production else BuildMode.development) = BuildMode.production
             <-> v = VStr "production").
  { intros v. rewrite <- Hstr. destruct (strict_eq_str v "production"); split; congruence. }
  split; [ | split; [ | split; [ | split ] ] ].
  - match goal with |- context [if ?b then _ else _] => destruct b end; auto.
  - intros e He Hnonempty. rewrite He, Hpick.
    unfold or_else. cbn [truthy].
    apply String.eqb_neq in Hnonempty. rewrite Hnonempty. cbn.
    split; [ intros H; injection H; auto | intros ->; reflexivity ].
  - intros Henv Harg. rewrite Hpick.
    assert (E : or_else (match NODE_ENV w with Some e => VStr e | None => VUndefined end)
                  (or_else (get argv "mode") (VStr "development")) = get argv "mode").
    { unfold or_else. rewrite Harg. destruct Henv as [-> | ->]; reflexivity. }
    rewrite E. reflexivity.
  - intros Henv Harg.
    assert (E : or_else (match NODE_ENV w with Some e => VStr e | None => VUndefined end)
                  (or_else (get argv "mode") (VStr "development")) = VStr "development").
    { unfold or_else. rewrite Harg. destruct Henv as [-> | ->]; reflexivity. }
    rewrite E. reflexivity.
  - intros Henv Harg. rewrite Henv. unfold or_else, get, argv. cbn [own_props truthy].
    rewrite Harg. reflexivity.
Qed.

(* ------------------------------------------------------------------------- *)
(** * The properties at concrete inputs *)

Example loadSettings_patterns_source_text :
  map RegExp.show
    [ dependenciesFiles loadSettings_patterns; sourceMapFiles loadSettings_patterns;
      javascriptFiles loadSettings_patterns; typescriptFiles loadSettings_patterns;
      cssFiles loadSettings_patterns; imageFiles loadSettings_patterns;
      fontFiles loadSettings_patterns; wasmFiles loadSettings_patterns;
      unityFiles loadSettings_patterns ]
  = [ "/node_modules/"; "/\.jsx?$/i"; "/\.jsx?$/i"; "/\.tsx?$/i"; "/\.css$/i";
      "/\.(png|svg|jpg|jpeg|gif)$/i"; "/\.(woff|woff2|eot|ttf|otf)$/i"; "/\.wasm$/i";
      "/\.unity$/i" ].
Proof. reflexivity. Qed.

Example imageFiles_test :
  map (RegExp.test (imageFiles loadSettings_patterns))
    ["logo.png"; "LOGO.PNG"; "photo.jpeg"; "photo.jpegx"; "png"; "archive.png.zip"]
  = [true; true; true; false; false; false].
Proof. reflexivity. Qed.

Example production_build_plugins :
  at_path
    match result (getBasicTypeScriptReactWebAppConfiguration posix_join VUndefined
                    (VObject [("mode", VStr "production")])) (sample_world None) with
    | Normal config => config
    | Throw _ => VUndefined
    end
    [Key "plugins"]
  = VArray [
      VNew Dotenv [VObject [("path", VStr "./.env.production"); ("systemvars", VBool true)]];
      VNew HtmlWebpackPlugin [VObject [("template", VStr "/srv/app/src/index.html")]] ].
Proof. reflexivity. Qed.

(** C1 at concrete inputs: [NODE_ENV=production] wins over [--mode
    development], and an unset [NODE_ENV] with an empty [argv] gives
    development. *)
Lemma loadSettings_mode_resolution_witness :
  (exists settings,
      result (loadSettings posix_join VUndefined
                (VObject [("mode", VStr "development")]))
             (sample_world (Some "production")) = Normal settings
      /\ mode settings = BuildMode.production)
  /\ (exists settings,
      result (loadSettings posix_join VUndefined (VObject [])) (sample_world None)
      = Normal settings
      /\ mode settings = BuildMode.development).
Proof.
  split.
  - destruct (loadSettings_mode_resolution posix_join VUndefined
                [("mode", VStr "development")] (sample_world (Some "production")))
      as [settings [Hret [_ [Henv _]]]].
    exists settings. split; [ exact Hret | ].
    apply (Henv "production"); [ reflexivity | discriminate | reflexivity ].
  - destruct (loadSettings_mode_resolution posix_join VUndefined [] (sample_world None))
      as [settings [Hret [_ [_ [_ [_ Hnone]]]]]].
    exists settings. split; [ exact Hret | ].
    apply Hnone; reflexivity.
Defined.

(** C2 at concrete inputs: one development and one production record. *)
Lemma development_server_only_in_development_witness :
  (exists config,
      result (buildWebpackConfiguration (sample_settings "development" None))
             (sample_world None) = Normal config
      /\ at_path config [Key "devServer"; Key "port"] = VNum 9000
      /\ at_path config [Key "devServer"; Key "https"] = VBool true
      /\ get config "devtool" = VStr "inline-cheap-module-source-map")
  /\ (exists config,
      result (buildWebpackConfiguration (sample_settings "production" None))
             (sample_world None) = Normal config
      /\ get config "devServer" = VUndefined
      /\ get config "devtool" = VBool false).
Proof.
  split.
  - eexists. split; [ reflexivity | ].
    destruct (@development_server_only_in_development
                (sample_settings "development" None) (sample_world None) _ eq_refl)
      as [Hdev _].
    destruct (Hdev eq_refl) as (_ & _ & _ & Hport & Hhttps & _ & _ & _ & Hdevtool & _).
    split; [ exact Hport | split; [ exact Hhttps | exact Hdevtool ] ].
  - eexists. split; [ reflexivity | ].
    destruct (@development_server_only_in_development
                (sample_settings "production" None) (sample_world None) _ eq_refl)
      as [_ Hprod].
    exact (Hprod eq_refl).
Defined.

(** C3 at concrete inputs: an empty instruction array gives two plugins, one
    accepted instruction gives three, one refused instruction makes the
    aggregator throw. *)
Lemma copy_plugin_only_with_instructions_witness :
  (exists config,
      result (buildWebpackConfiguration (sample_settings "production" (Some [])))
             (sample_world None) = Normal config
      /\ length (elements (get config "plugins")) = 2)
  /\ (exists config,
      result (buildWebpackConfiguration
                (sample_settings "production"
                   (Some [ {| to := "assets"; from := "public/assets" |} ])))
             (sample_world None) = Normal config
      /\ length (elements (get config "plugins")) = 3
      /\ at_path config [Key "plugins"; Idx 2]
         = VNew CopyPlugin [
             VObject [("patterns",
                       VArray [VObject [("to", VStr "assets");
                                        ("from", VStr "public/assets")]])]])
  /\ (exists message,
      result (buildWebpackConfiguration
                (sample_settings "production" (Some [ {| to := "assets"; from := "" |} ])))
             (sample_world None) = Throw (ValidationError message)).
Proof.
  split; [ | split ].
  - destruct (copy_plugin_only_with_instructions
                (sample_settings "production" (Some [])) (sample_world None))
      as [Hnone _].
    destruct (Hnone (or_intror eq_refl)) as [config [Hret Hplugins]].
    exists config. split; [ exact Hret | ].
    rewrite Hplugins. reflexivity.
  - destruct (copy_plugin_only_with_instructions
                (sample_settings "production"
                   (Some [ {| to := "assets"; from := "public/assets" |} ]))
                (sample_world None))
      as [_ [Hsome _]].
    destruct (Hsome _ _ eq_refl eq_refl) as [config [Hret Hplugins]].
    exists config. split; [ exact Hret | ].
    unfold at_path. rewrite Hplugins. split; reflexivity.
  - destruct (copy_plugin_only_with_instructions
                (sample_settings "production" (Some [ {| to := "assets"; from := "" |} ]))
                (sample_world None))
      as [_ [_ [Hrefused _]]].
    exact (Hrefused _ _ eq_refl eq_refl).
Defined.

(** C3 as first stated fails: a record with one copy instruction whose
    [from] is empty has a non-empty instruction sequence, yet the aggregator
    throws and no plugin list comes out. *)
Lemma copy_plugin_refused_instructions_counterexample :
  let settings := sample_settings "production" (Some [ {| to := "assets"; from := "" |} ]) in
  copyExistingFiles settings = Some [ {| to := "assets"; from := "" |} ]
  /\ (exists message,
      result (buildWebpackConfiguration settings) (sample_world None)
      = Throw (ValidationError message))
  /\ ~ (exists config,
         result (buildWebpackConfiguration settings) (sample_world None) = Normal config
         /\ length (elements (get config "plugins")) = 3).
Proof.
  split; [ reflexivity | split ].
  - eexists. reflexivity.
  - intros [config [H _]]. discriminate H.
Qed.

(** C4 at a concrete input: in development the rule at index 0 is the
    source-map rule, and a stylesheet under [src] is claimed by the styles
    rule alone. *)
Lemma source_map_rule_first_and_outside_oneOf_witness :
  exists config,
    result (buildWebpackConfiguration (sample_settings "development" None))
           (sample_world None) = Normal config
    /\ (exists r, In r (module_rules config) /\ is_source_map_rule r = true)
    /\ Bundler.claiming_rules (module_rules config) "src/app.css"
       = createStylesLoader (sample_settings "development" None).
Proof.
  eexists. split; [ reflexivity | ].
  destruct (@source_map_rule_first_and_outside_oneOf
              (sample_settings "development" None) (sample_world None) _ eq_refl)
    as [Hiff [_ [_ [_ [Hset Hclaim]]]]].
  split; [ apply Hiff; reflexivity | ].
  rewrite Hclaim, Hset. reflexivity.
Defined.

(** C5 at concrete inputs: purging is on in a production record and off in
    a development record. *)
Lemma tailwind_purge_iff_production_witness :
  (exists config stylesRule,
      result (buildWebpackConfiguration (sample_settings "production" None))
             (sample_world None) = Normal config
      /\ In stylesRule (exclusive_rules config)
      /\ at_path stylesRule
           [Key "use"; Idx 2; Key "options"; Key "postcssOptions"; Key "plugins"; Idx 2;
            Idx 1; Key "purge"; Key "enabled"]
         = VBool true)
  /\ (exists config stylesRule,
      result (buildWebpackConfiguration (sample_settings "development" None))
             (sample_world None) = Normal config
      /\ In stylesRule (exclusive_rules config)
      /\ at_path stylesRule
           [Key "use"; Idx 2; Key "options"; Key "postcssOptions"; Key "plugins"; Idx 2;
            Idx 1; Key "purge"; Key "enabled"]
         = VBool false).
Proof.
  split.
  - destruct (@tailwind_purge_iff_production
                (sample_settings "production" None) (sample_world None) _ eq_refl)
      as [stylesRule [enabled [_ [Hin [_ [_ [Hflag Hiff]]]]]]].
    eexists. exists stylesRule. split; [ reflexivity | ].
    split; [ exact Hin | ].
    rewrite Hflag. f_equal. apply Hiff. reflexivity.
  - destruct (@tailwind_purge_iff_production
                (sample_settings "development" None) (sample_world None) _ eq_refl)
      as [stylesRule [enabled [_ [Hin [_ [_ [Hflag Hiff]]]]]]].
    eexists. exists stylesRule. split; [ reflexivity | ].
    split; [ exact Hin | ].
    rewrite Hflag. f_equal.
    destruct enabled; [ | reflexivity ].
    discriminate (proj1 Hiff eq_refl).
Defined.

(** C6 at a concrete input: the [devServer] slice reads back unchanged. *)
Lemma builders_contribute_disjoint_keys_witness :
  exists config,
    result (buildWebpackConfiguration (sample_settings "development" None))
           (sample_world None) = Normal config
    /\ get config "devServer"
       = get (configureDevelopmentServer (sample_settings "development" None)) "devServer".
Proof.
  eexists. split; [ reflexivity | ].
  destruct (@builders_contribute_disjoint_keys
              (sample_settings "development" None) (sample_world None) _ eq_refl)
    as [plugins [_ [_ [_ [Htop _]]]]].
  apply Htop; simpl; tauto.
Defined.

(** C8 at a concrete input, with the defaults the source comment names. *)
Lemma extensions_include_typescript_and_defaults_witness :
  exists config,
    result (buildWebpackConfiguration (sample_settings "production" None))
           (sample_world None) = Normal config
    /\ incl [".ts"; ".tsx"; ".js"; ".json"; ".wasm"]
         (Bundler.expand_extensions [".js"; ".json"; ".wasm"]
            (at_path config [Key "resolve"; Key "extensions"])).
Proof.
  eexists. split; [ reflexivity | ].
  destruct (@extensions_include_typescript_and_defaults
              (sample_settings "production" None) (sample_world None)
              [".js"; ".json"; ".wasm"] _ eq_refl)
    as [_ [Hts [Htsx Hdefaults]]].
  intros e [<- | [<- | He]]; [ exact Hts | exact Htsx | apply Hdefaults, He ].
Defined.

(** C9 at a concrete input. *)
Lemma node_fallbacks_and_polyfills_are_literal_witness :
  exists config,
    result (buildWebpackConfiguration (sample_settings "development" None))
           (sample_world None) = Normal config
    /\ at_path config [Key "resolve"; Key "fallback"; Key "fs"] = VBool false
    /\ at_path config [Key "node"; Key "global"] = VBool true.
Proof.
  eexists. split; [ reflexivity | ].
  destruct (@node_fallbacks_and_polyfills_are_literal
              (sample_settings "development" None) (sample_world None) _ eq_refl)
    as [Hfs [_ [_ [Hglobal _]]]].
  split; [ exact Hfs | exact Hglobal ].
Defined.

(** C10 at concrete inputs: a dependency's script is not claimed by the
    source-map rule, a script under [src] is. *)
Lemma source_map_rule_excludes_dependencies_witness :
  exists rule,
    createSourceMapsLoader (sample_settings "development" None) = [rule]
    /\ Bundler.rule_applies rule "/srv/app/node_modules/react/index.js" = false
    /\ Bundler.rule_applies rule "/srv/app/src/legacy.js" = true.
Proof.
  destruct (source_map_rule_excludes_dependencies (sample_settings "development" None))
    as [rule [Hrule [_ [_ [_ [_ [_ [Hloaded _]]]]]]]].
  destruct (Hloaded eq_refl) as [_ [Hnever Hscript]].
  exists rule. split; [ exact Hrule | ]. split.
  - apply Hnever. exists "/srv/app/", "/react/index.js". reflexivity.
  - apply (Hscript "/srv/app/src/legacy" ".js"); [ left; reflexivity | ].
    intros H. apply search_lit in H. discriminate H.
Defined.

(* ------------------------------------------------------------------------- *)
(** * What the patterns match *)

Lemma existsb_pointwise {A} (f g : A -> bool) (l : list A) :
  (forall x, f x = g x) -> existsb f l = existsb g l.
Proof. intros H. induction l as [ | x l IH ]; simpl; [ reflexivity | now rewrite H, IH ]. Qed.

Lemma existsb_flat_map {A B} (f : B -> bool) (g : A -> list B) (l : list A) :
  existsb f (flat_map g l) = existsb (fun x => existsb f (g x)) l.
Proof.
  induction l as [ | x l IH ]; simpl; [ reflexivity | ].
  now rewrite existsb_app, IH.
Qed.

Lemma existsb_map {A B} (f : B -> bool) (h : A -> B) (l : list A) :
  existsb f (map h l) = existsb (fun x => f (h x)) l.
Proof. induction l as [ | x l IH ]; simpl; [ reflexivity | now rewrite IH ]. Qed.

Lemma existsb_never {A} (f : A -> bool) (l : list A) :
  (forall x, f x = false) -> existsb f l = false.
Proof. intros H. induction l as [ | x l IH ]; simpl; [ reflexivity | now rewrite H, IH ]. Qed.

Lemma strip_app (ic : bool) (a b s : string) :
  strip ic (a ++ b) s
  = match strip ic a s with
    | Some rest => strip ic b rest
    | None => None
    end.
Proof.
  revert s. induction a as [ | c a IH ]; intros s; simpl; [ reflexivity | ].
  destruct s as [ | x s ]; [ reflexivity | ].
  destruct (RegExp.char_eq ic x c); [ apply IH | reflexivity ].
Qed.

(** The matcher, on a pattern without assertions, reads one of the pattern's
    words off the front of the input and goes on with the rest. *)
Lemma matches_words (ic : bool) (r : RegExp.node) :
  assertion_free r = true ->
  forall (s : string) (k : string -> bool),
    RegExp.matches ic r s k
    = existsb (fun w => match strip ic w s with
                        | Some rest => k rest
                        | None => false
                        end) (words r).
Proof.
  induction r as [ | c | a IHa b IHb | a IHa b IHb | a IHa | a IHa | ]; simpl; intros Hfree s k.
  - now rewrite orb_false_r.
  - destruct s as [ | x s ]; [ reflexivity | ].
    destruct (RegExp.char_eq ic x c); simpl; [ now rewrite orb_false_r | reflexivity ].
  - apply andb_true_iff in Hfree. destruct Hfree as [Ha Hb].
    rewrite (IHa Ha), existsb_flat_map. apply existsb_pointwise. intros wa.
    rewrite existsb_map. destruct (strip ic wa s) as [rest | ] eqn:E.
    + rewrite (IHb Hb). apply existsb_pointwise. intros wb. now rewrite strip_app, E.
    + symmetry. apply existsb_never. intros wb. now rewrite strip_app, E.
  - apply andb_true_iff in Hfree. destruct Hfree as [Ha Hb].
    now rewrite existsb_app, (IHa Ha), (IHb Hb).
  - rewrite existsb_app, (IHa Hfree). simpl. now rewrite orb_false_r.
  - apply (IHa Hfree).
  - discriminate Hfree.
Qed.

Lemma strip_all_ci (w tail : string) :
  strip true w tail = Some EmptyString <-> string_eq_ci tail w = true.
Proof.
  revert tail. induction w as [ | c w IH ]; intros tail; cbn [strip string_eq_ci].
  - destruct tail; cbn [string_eq_ci]; split; congruence.
  - destruct tail as [ | x tail ]; cbn [string_eq_ci]; [ split; discriminate | ].
    destruct (RegExp.char_eq true x c); cbn [andb]; [ apply IH | split; discriminate ].
Qed.

(** A pattern [r$] is found in exactly the inputs that end in one of the
    words of [r]. *)
Lemma search_at_end (r : RegExp.node) (s : string) :
  assertion_free r = true ->
  (RegExp.search true (RegExp.Seq r RegExp.AssertEnd) s = true
   <-> ends_with_any (words r) s).
Proof.
  intros Hfree.
  assert (Hhere : forall t,
             RegExp.matches true (RegExp.Seq r RegExp.AssertEnd) t (fun _ => true) = true
             <-> exists w, In w (words r) /\ string_eq_ci t w = true).
  { intros t. simpl. rewrite (matches_words true r Hfree), existsb_exists.
    split; intros [w [Hin Hw]]; exists w; (split; [ exact Hin | ]).
    - apply strip_all_ci. destruct (strip true w t) as [[ | ] | ]; congruence.
    - apply strip_all_ci in Hw. now rewrite Hw. }
  split.
  - induction s as [ | c s IH ]; rewrite search_unfold, orb_true_iff, Hhere.
    + intros [[w [Hin Hw]] | H]; [ | discriminate H ].
      exists w. split; [ exact Hin | ]. exists EmptyString, EmptyString. auto.
    + intros [[w [Hin Hw]] | H].
      * exists w. split; [ exact Hin | ]. exists EmptyString, (String c s). auto.
      * destruct (IH H) as [w [Hin [stem [tail [-> Hw]]]]].
        exists w. split; [ exact Hin | ]. exists (String c stem), tail. auto.
  - intros [w [Hin [stem [tail [-> Hw]]]]].
    induction stem as [ | c stem IH ]; simpl append; rewrite search_unfold, orb_true_iff.
    + left. apply Hhere. exists w. auto.
    + right. exact IH.
Qed.

Lemma ends_with_any_incl (exts exts' : list string) (path : string) :
  incl exts exts' -> ends_with_any exts path -> ends_with_any exts' path.
Proof. intros H [ext [Hin He]]. exists ext. split; [ apply H, Hin | exact He ]. Qed.

Lemma search_seq_assoc (ic : bool) (a b c : RegExp.node) (s : string) :
  RegExp.search ic (RegExp.Seq a (RegExp.Seq b c)) s
  = RegExp.search ic (RegExp.Seq (RegExp.Seq a b) c) s.
Proof.
  induction s as [ | x s IH ]; rewrite (search_unfold ic (RegExp.Seq a _)),
    (search_unfold ic (RegExp.Seq (RegExp.Seq a b) c)); [ reflexivity | ].
  now rewrite IH.
Qed.

(** A pattern of the shape [/\.body$/i]. *)
Lemma test_extension_pattern (body : RegExp.node) (exts : list string) (path : string) :
  assertion_free body = true ->
  incl (words (RegExp.Seq (RegExp.Char ".") body)) exts ->
  incl exts (words (RegExp.Seq (RegExp.Char ".") body)) ->
  (RegExp.test
     (RegExp.Build (RegExp.Seq (RegExp.Char ".") (RegExp.Seq body RegExp.AssertEnd)) true)
     path = true
   <-> ends_with_any exts path).
Proof.
  intros Hfree Hsub Hsup. unfold RegExp.test. cbn [RegExp.source RegExp.ignoreCase].
  rewrite search_seq_assoc, search_at_end by exact Hfree.
  split; apply ends_with_any_incl; assumption.
Qed.

Ltac extension_pattern :=
  apply test_extension_pattern;
  [ reflexivity
  | intros e He; simpl in He; unfold script_extensions, typescript_extensions,
      css_extensions, image_extensions, font_extensions, wasm_extensions,
      unity_extensions; simpl; tauto
  | intros e He; unfold script_extensions, typescript_extensions,
      css_extensions, image_extensions, font_extensions, wasm_extensions,
      unity_extensions in He; simpl in He; simpl; tauto ].

(** X1: the nine patterns of [loadSettings] match what the typedef of
    [IFilesPatterns] documents.  [dependenciesFiles] holds of the paths in
    which [node_modules] occurs, in that spelling; each of the other eight
    holds of exactly the paths that end, letter case aside, in one of its
    extensions. *)
Theorem loadSettings_patterns_match_documented_extensions (path : string) :
  (RegExp.test (dependenciesFiles loadSettings_patterns) path = true
   <-> occurs_in "node_modules" path)
  /\ (RegExp.test (sourceMapFiles loadSettings_patterns) path = true
      <-> ends_with_any script_extensions path)
  /\ (RegExp.test (javascriptFiles loadSettings_patterns) path = true
      <-> ends_with_any script_extensions path)
  /\ (RegExp.test (typescriptFiles loadSettings_patterns) path = true
      <-> ends_with_any typescript_extensions path)
  /\ (RegExp.test (cssFiles loadSettings_patterns) path = true
      <-> ends_with_any css_extensions path)
  /\ (RegExp.test (imageFiles loadSettings_patterns) path = true
      <-> ends_with_any image_extensions path)
  /\ (RegExp.test (fontFiles loadSettings_patterns) path = true
      <-> ends_with_any font_extensions path)
  /\ (RegExp.test (wasmFiles loadSettings_patterns) path = true
      <-> ends_with_any wasm_extensions path)
  /\ (RegExp.test (unityFiles loadSettings_patterns) path = true
      <-> ends_with_any unity_extensions path).
Proof.
  split; [ apply (search_lit "node_modules" path) | ].
  repeat (split; [ extension_pattern | ]).
  extension_pattern.
Qed.

(** ** Paths that end in two extensions *)

Lemma string_eq_ci_sym (a b : string) : string_eq_ci a b = string_eq_ci b a.
Proof.
  revert b. induction a as [ | x a IH ]; intros [ | y b ]; simpl; try reflexivity.
  rewrite IH. f_equal. apply Ascii.eqb_sym.
Qed.

Lemma string_eq_ci_trans (a b c : string) :
  string_eq_ci a b = true -> string_eq_ci b c = true -> string_eq_ci a c = true.
Proof.
  revert b c. induction a as [ | x a IH ]; intros [ | y b ] [ | z c ]; simpl; try congruence.
  rewrite !andb_true_iff, !Ascii.eqb_eq. intros [Hxy Hab] [Hyz Hbc].
  split; [ congruence | apply (IH b c); assumption ].
Qed.

Lemma append_eq_split (a b c d : string) :
  (a ++ b)%string = (c ++ d)%string ->
  (exists x, b = (x ++ d)%string) \/ (exists x, d = (x ++ b)%string).
Proof.
  revert c. induction a as [ | h a IH ]; intros c H; simpl in H.
  - left. exists c. exact H.
  - destruct c as [ | h' c ]; simpl in H.
    + right. exists (String h a). symmetry. exact H.
    + injection H as _ H. apply (IH c H).
Qed.

Lemma string_eq_ci_app (x t e : string) :
  string_eq_ci (x ++ t) e = true ->
  exists y e', e = (y ++ e')%string /\ string_eq_ci t e' = true.
Proof.
  revert e. induction x as [ | h x IH ]; intros e H; simpl in H.
  - exists EmptyString, e. auto.
  - destruct e as [ | h' e ]; [ discriminate H | ].
    apply andb_true_iff in H. destruct H as [_ H].
    destruct (IH e H) as [y [e' [-> He']]].
    exists (String h' y), e'. auto.
Qed.

Lemma suffixes_self (s : string) : In s (suffixes s).
Proof. destruct s; left; reflexivity. Qed.

Lemma suffixes_app (y e : string) : In e (suffixes (y ++ e)).
Proof.
  induction y as [ | h y IH ]; [ apply suffixes_self | ].
  simpl. right. exact IH.
Qed.

Lemma ends_with_both (e1 e2 path : string) :
  ends_with_ci e1 path -> ends_with_ci e2 path -> ci_overlap e1 e2 = true.
Proof.
  intros [s1 [t1 [-> H1]]] [s2 [t2 [H H2]]].
  assert (Hstep : forall ta tb ea eb x,
             string_eq_ci ta ea = true -> string_eq_ci tb eb = true ->
             ta = (x ++ tb)%string ->
             existsb (string_eq_ci eb) (suffixes ea) = true).
  { intros ta tb ea eb x Ha Hb ->.
    destruct (string_eq_ci_app x tb ea Ha) as [y [e' [-> He']]].
    apply existsb_exists. exists e'. split; [ apply suffixes_app | ].
    apply (string_eq_ci_trans eb tb e'); [ | exact He' ].
    rewrite string_eq_ci_sym. exact Hb. }
  unfold ci_overlap. apply orb_true_iff.
  destruct (append_eq_split s1 t1 s2 t2 H) as [[x Hx] | [x Hx]].
  - right. exact (Hstep t1 t2 e1 e2 x H1 H2 Hx).
  - left. exact (Hstep t2 t1 e2 e1 x H2 H1 Hx).
Qed.

Lemma ci_disjoint_sound (exts1 exts2 : list string) (path : string) :
  ci_disjoint exts1 exts2 = true ->
  ends_with_any exts1 path -> ends_with_any exts2 path -> False.
Proof.
  intros Hd [e1 [Hin1 H1]] [e2 [Hin2 H2]].
  unfold ci_disjoint in Hd. rewrite forallb_forall in Hd.
  specialize (Hd e1 Hin1). rewrite forallb_forall in Hd.
  specialize (Hd e2 Hin2). rewrite (ends_with_both H1 H2) in Hd. discriminate Hd.
Qed.

(** ** The rules of the [oneOf] set under the patterns of [loadSettings] *)

Lemma rule_applies_test (rule : value) (re : RegExp.t) (path : string) :
  lookup "test" (own_props rule) = Some (VRegExp re) ->
  Bundler.rule_applies rule path = true ->
  RegExp.test re path = true.
Proof.
  unfold Bundler.rule_applies, has_own, get. intros ->. cbn [Bundler.condition].
  intros H. apply andb_true_iff in H. apply H.
Qed.

Lemma exclusive_rule_extensions (settings : ISettings) (path : string) (i : nat) (r : value) :
  patterns settings = loadSettings_patterns ->
  nth_error (createStylesLoader settings ++ createLanguageLoader settings
             ++ createImagesLoader settings ++ createFontsLoader settings
             ++ createWasmLoader settings ++ createUnityLoader settings) i = Some r ->
  Bundler.rule_applies r path = true ->
  ends_with_any (nth i category_extensions []) path.
Proof.
  intros Hp Hnth Happ.
  unfold createStylesLoader, createLanguageLoader, createImagesLoader, createFontsLoader,
    createWasmLoader, createUnityLoader in Hnth.
  rewrite Hp in Hnth.
  do 7 (destruct i as [ | i ];
        [ cbn [nth_error app] in Hnth; injection Hnth as <-;
          eapply rule_applies_test in Happ; [ | reflexivity ];
          cbn [nth category_extensions];
          refine (proj1 _ Happ); extension_pattern | ]).
  destruct i; discriminate Hnth.
Qed.

Lemma category_extensions_disjoint (i j : nat) :
  i <> j -> i < 7 -> j < 7 ->
  ci_disjoint (nth i category_extensions []) (nth j category_extensions []) = true.
Proof.
  intros Hne Hi Hj.
  do 7 (destruct i as [ | i ];
        [ do 7 (destruct j as [ | j ]; [ try reflexivity; congruence | ]); lia | ]).
  lia.
Qed.

Unset Implicit Arguments.

Section LoadedPatterns.

Variable settings : ISettings.
Hypothesis loaded : patterns settings = loadSettings_patterns.

Let rules : list value :=
  createStylesLoader settings ++ createLanguageLoader settings
  ++ createImagesLoader settings ++ createFontsLoader settings
  ++ createWasmLoader settings ++ createUnityLoader settings.

(** A rule of the set that applies to a path of some category sits at the
    position of that category. *)
Lemma applying_rule_position (path : string) (i c : nat) (r : value) :
  nth_error rules i = Some r ->
  Bundler.rule_applies r path = true ->
  c < 7 ->
  ends_with_any (nth c category_extensions []) path ->
  i = c.
Proof.
  intros Hi Happ Hc Hpath.
  destruct (Nat.eq_dec i c) as [ | Hne ]; [ assumption | exfalso ].
  assert (i < 7).
  { change 7 with (length rules). apply nth_error_Some. congruence. }
  apply (@ci_disjoint_sound (nth i category_extensions []) (nth c category_extensions [])
           path).
  - apply category_extensions_disjoint; assumption.
  - apply (exclusive_rule_extensions settings path i loaded Hi Happ).
  - exact Hpath.
Qed.

Lemma applying_rules_same_position (path : string) (i j : nat) (ri rj : value) :
  nth_error rules i = Some ri -> nth_error rules j = Some rj ->
  Bundler.rule_applies ri path = true ->
  Bundler.rule_applies rj path = true ->
  i = j.
Proof.
  intros Hi Hj Hai Haj.
  assert (j < 7).
  { change 7 with (length rules). apply nth_error_Some. congruence. }
  apply (applying_rule_position path i j ri Hi Hai); [ assumption | ].
  apply (exclusive_rule_extensions settings path j loaded Hj Haj).
Qed.

Lemma first_match_applying_rule (path : string) (r : value) :
  In r rules ->
  Bundler.rule_applies r path = true ->
  Bundler.first_match rules path = Some r.
Proof.
  intros Hin Happ. unfold Bundler.first_match.
  destruct (find (fun r' => Bundler.rule_applies r' path) rules) as [r' | ] eqn:E.
  - apply find_some in E. destruct E as [Hin' Happ'].
    apply In_nth_error in Hin. destruct Hin as [i Hi].
    apply In_nth_error in Hin'. destruct Hin' as [j Hj].
    assert (i = j) by exact (applying_rules_same_position path i j r r' Hi Hj Happ Happ').
    subst j. congruence.
  - rewrite (find_none _ _ E r Hin) in Happ. discriminate Happ.
Qed.

(** No rule of the set applies to a path of a category whose own rule does
    not apply. *)
Lemma first_match_none (path : string) (c : nat) :
  c < 7 ->
  ends_with_any (nth c category_extensions []) path ->
  (forall r, nth_error rules c = Some r -> Bundler.rule_applies r path = false) ->
  Bundler.first_match rules path = None.
Proof.
  intros Hc Hpath Hown. unfold Bundler.first_match.
  destruct (find (fun r' => Bundler.rule_applies r' path) rules) as [r' | ] eqn:E;
    [ exfalso | reflexivity ].
  apply find_some in E. destruct E as [Hin Happ].
  apply In_nth_error in Hin. destruct Hin as [i Hi].
  assert (i = c) by exact (applying_rule_position path i c r' Hi Happ Hc Hpath).
  subst i. rewrite (Hown r' Hi) in Happ. discriminate Happ.
Qed.

Lemma configuration_claiming_rules (p : value) (path : string) :
  Bundler.claiming_rules
    (module_rules (object_literal
                     (buildWebpackConfiguration_members settings (VObject [("plugins", p)]))))
    path
  = (if mode settings =? BuildMode.development
     then filter (fun r => Bundler.rule_applies r path) (createSourceMapsLoader settings)
     else [])
    ++ match Bundler.first_match rules path with
       | Some r => [r]
       | None => []
       end.
Proof.
  rewrite configuration_module_rules.
  destruct (mode settings =? BuildMode.development).
  - unfold createSourceMapsLoader at 1. cbn [app].
    rewrite claiming_rules_plain by reflexivity.
    rewrite claiming_rules_oneOf. reflexivity.
  - cbn [app]. apply claiming_rules_oneOf.
Qed.

Lemma dependencies_test (path : string) :
  RegExp.test (dependenciesFiles (patterns settings)) path = true
  <-> occurs_in "node_modules" path.
Proof. rewrite loaded. apply (search_lit "node_modules" path). Qed.

Lemma dependencies_test_false (path : string) :
  ~ occurs_in "node_modules" path ->
  RegExp.test (dependenciesFiles (patterns settings)) path = false.
Proof.
  intros H. destruct (RegExp.test (dependenciesFiles (patterns settings)) path) eqn:E;
    [ | reflexivity ].
  exfalso. apply H, dependencies_test, E.
Qed.

(** The source-map rule stays away from every path that is not a script. *)
Lemma source_map_rule_other_category (path : string) (c : nat) :
  c < 7 -> c <> 1 ->
  ends_with_any (nth c category_extensions []) path ->
  filter (fun r => Bundler.rule_applies r path) (createSourceMapsLoader settings) = [].
Proof.
  intros Hc Hne Hpath. unfold createSourceMapsLoader. cbn [filter].
  rewrite rule_applies_test_exclude.
  destruct (RegExp.test (sourceMapFiles (patterns settings)) path) eqn:E; [ exfalso | reflexivity ].
  rewrite loaded in E.
  apply (@ci_disjoint_sound (nth c category_extensions []) (nth 1 category_extensions [])
           path).
  - apply category_extensions_disjoint; [ assumption | assumption | lia ].
  - exact Hpath.
  - refine (proj1 _ E). extension_pattern.
Qed.

End LoadedPatterns.

(** X2: under the patterns of [loadSettings], in a configuration the
    aggregator returned, no path is claimed by two rules of the [oneOf] set: rules at two positions of the set that both apply to
    a path are at the same position.  So the order of the set decides
    nothing: whichever rule of the set applies to a path is the one the
    first-match reading picks. *)
Theorem exclusive_rules_apply_to_disjoint_paths
    (settings : ISettings) (w : World) (config : value) :
  patterns settings = loadSettings_patterns ->
  result (buildWebpackConfiguration settings) w = Normal config ->
  (forall path i j ri rj,
      nth_error (exclusive_rules config) i = Some ri ->
      nth_error (exclusive_rules config) j = Some rj ->
      Bundler.rule_applies ri path = true ->
      Bundler.rule_applies rj path = true ->
      i = j)
  /\ (forall path r,
      In r (exclusive_rules config) ->
      Bundler.rule_applies r path = true ->
      Bundler.first_match (exclusive_rules config) path = Some r).
Proof.
  intros Hp Hret. built Hret p Hplugins.
  rewrite configuration_exclusive_rules. split.
  - intros path i j ri rj. apply (applying_rules_same_position settings Hp).
  - intros path r. apply (first_match_applying_rule settings Hp).
Qed.

(** X3: under the patterns of [loadSettings], in a configuration the
    aggregator returned and whatever the mode, a script
    ([.js], [.jsx], [.ts], [.tsx]) in whose path [node_modules] occurs is
    claimed by no rule at all, neither the source-map rule nor any rule of
    the [oneOf] set. *)
Theorem dependency_scripts_are_claimed_by_no_rule
    (settings : ISettings) (w : World) (config : value) :
  patterns settings = loadSettings_patterns ->
  result (buildWebpackConfiguration settings) w = Normal config ->
  forall path,
    ends_with_any script_extensions path \/ ends_with_any typescript_extensions path ->
    occurs_in "node_modules" path ->
    Bundler.claiming_rules (module_rules config) path = [].
Proof.
  intros Hp Hret. built Hret p Hplugins.
  intros path Hext Hdep.
  apply (dependencies_test settings Hp) in Hdep.
  rewrite (configuration_claiming_rules settings p).
  assert (Hmap : filter (fun r => Bundler.rule_applies r path)
                   (createSourceMapsLoader settings) = []).
  { unfold createSourceMapsLoader. cbn [filter].
    rewrite rule_applies_test_exclude, Hdep, andb_false_r. reflexivity. }
  rewrite Hmap.
  assert (Hnone : Bundler.first_match
                    (createStylesLoader settings ++ createLanguageLoader settings
                     ++ createImagesLoader settings ++ createFontsLoader settings
                     ++ createWasmLoader settings ++ createUnityLoader settings) path = None).
  { destruct Hext as [Hjs | Hts].
    - apply (first_match_none settings Hp path 1); [ lia | exact Hjs | ].
      intros r Hr. cbn in Hr. injection Hr as <-.
      rewrite rule_applies_test_exclude, Hdep. apply andb_false_r.
    - apply (first_match_none settings Hp path 2); [ lia | exact Hts | ].
      intros r Hr. cbn in Hr. injection Hr as <-.
      rewrite rule_applies_test_exclude, Hdep. apply andb_false_r. }
  rewrite Hnone. destruct (mode settings =? BuildMode.development); reflexivity.
Qed.

(** X4: under the patterns of [loadSettings], in a configuration the
    aggregator returned, a script in whose path
    [node_modules] does not occur is claimed as follows: a [.ts] or [.tsx]
    file by the Typescript rule alone, in every mode; a [.js] or [.jsx] file
    by the Javascript rule, preceded in development mode by the source-map
    rule. *)
Theorem own_scripts_are_claimed_by_their_language_rule
    (settings : ISettings) (w : World) (config : value) :
  patterns settings = loadSettings_patterns ->
  result (buildWebpackConfiguration settings) w = Normal config ->
  exists javascriptRule typescriptRule,
    createLanguageLoader settings = [javascriptRule; typescriptRule]
    /\ forall path,
        ~ occurs_in "node_modules" path ->
        (ends_with_any typescript_extensions path ->
         Bundler.claiming_rules (module_rules config) path = [typescriptRule])
        /\ (ends_with_any script_extensions path ->
            Bundler.claiming_rules (module_rules config) path
            = (if mode settings =? BuildMode.development
               then createSourceMapsLoader settings else [])
              ++ [javascriptRule]).
Proof.
  intros Hp Hret. built Hret p Hplugins. do 2 eexists.
  split; [ reflexivity | ].
  intros path Hfree. apply (dependencies_test_false settings Hp) in Hfree.
  rewrite (configuration_claiming_rules settings p). split.
  - intros Hts.
    rewrite (source_map_rule_other_category settings Hp path 2); [ | lia | lia | exact Hts ].
    rewrite (first_match_applying_rule settings Hp path
               (nth 1 (createLanguageLoader settings) VUndefined)).
    + unfold createLanguageLoader. cbn [nth].
      destruct (mode settings =? BuildMode.development); reflexivity.
    + cbn. tauto.
    + cbn [nth createLanguageLoader].
      rewrite rule_applies_test_exclude, Hfree, andb_true_r. rewrite Hp.
      refine (proj2 _ Hts). extension_pattern.
  - intros Hjs.
    assert (Htest : RegExp.test (javascriptFiles (patterns settings)) path = true).
    { rewrite Hp. refine (proj2 _ Hjs). extension_pattern. }
    assert (Hmap : RegExp.test (sourceMapFiles (patterns settings)) path = true).
    { rewrite Hp. refine (proj2 _ Hjs). extension_pattern. }
    rewrite (first_match_applying_rule settings Hp path
               (nth 0 (createLanguageLoader settings) VUndefined)).
    + unfold createSourceMapsLoader. cbn [filter].
      rewrite rule_applies_test_exclude, Hmap, Hfree. reflexivity.
    + cbn. tauto.
    + cbn [nth createLanguageLoader].
      rewrite rule_applies_test_exclude, Htest, Hfree. reflexivity.
Qed.

Lemma rule_applies_without_exclude (rule : value) (re : RegExp.t) (path : string) :
  lookup "test" (own_props rule) = Some (VRegExp re) ->
  lookup "exclude" (own_props rule) = None ->
  Bundler.rule_applies rule path = RegExp.test re path.
Proof.
  unfold Bundler.rule_applies, has_own, get. intros -> ->.
  cbn [Bundler.condition negb]. apply andb_true_r.
Qed.

Lemma claimed_by_unconditional_rule
    (settings : ISettings) (p : value) (path : string) (c : nat) (r : value) (re : RegExp.t) :
  patterns settings = loadSettings_patterns ->
  c < 7 -> c <> 1 ->
  ends_with_any (nth c category_extensions []) path ->
  nth_error (createStylesLoader settings ++ createLanguageLoader settings
             ++ createImagesLoader settings ++ createFontsLoader settings
             ++ createWasmLoader settings ++ createUnityLoader settings) c = Some r ->
  lookup "test" (own_props r) = Some (VRegExp re) ->
  lookup "exclude" (own_props r) = None ->
  RegExp.test re path = true ->
  Bundler.claiming_rules
    (module_rules (object_literal
                     (buildWebpackConfiguration_members settings (VObject [("plugins", p)]))))
    path
  = [r].
Proof.
  intros Hp Hc Hne Hpath Hr Htest Hexclude Hmatch.
  rewrite (configuration_claiming_rules settings p).
  rewrite (source_map_rule_other_category settings Hp path c Hc Hne Hpath).
  rewrite (first_match_applying_rule settings Hp path r).
  - destruct (mode settings =? BuildMode.development); reflexivity.
  - apply (nth_error_In _ c Hr).
  - rewrite (rule_applies_without_exclude r re path Htest Hexclude). exact Hmatch.
Qed.

(** X5: the styles rule and the four asset rules carry no exclusion.  Under
    the patterns of [loadSettings], in a configuration the aggregator
    returned, a stylesheet, image, font, [.wasm] or
    [.unity] file is claimed by the rule of its category and by no other
    rule, in every mode and wherever the file lies, inside [node_modules]
    too. *)
Theorem styles_and_assets_are_claimed_everywhere
    (settings : ISettings) (w : World) (config : value) :
  patterns settings = loadSettings_patterns ->
  result (buildWebpackConfiguration settings) w = Normal config ->
  Forall (fun r => has_own r "exclude" = false)
    (createStylesLoader settings ++ createImagesLoader settings
     ++ createFontsLoader settings ++ createWasmLoader settings
     ++ createUnityLoader settings)
  /\ forall path,
        (ends_with_any css_extensions path ->
         Bundler.claiming_rules (module_rules config) path = createStylesLoader settings)
        /\ (ends_with_any image_extensions path ->
            Bundler.claiming_rules (module_rules config) path = createImagesLoader settings)
        /\ (ends_with_any font_extensions path ->
            Bundler.claiming_rules (module_rules config) path = createFontsLoader settings)
        /\ (ends_with_any wasm_extensions path ->
            Bundler.claiming_rules (module_rules config) path = createWasmLoader settings)
        /\ (ends_with_any unity_extensions path ->
            Bundler.claiming_rules (module_rules config) path = createUnityLoader settings).
Proof.
  intros Hp Hret. built Hret p Hplugins.
  split; [ repeat constructor | ].
  intros path.
  split; [ | split; [ | split; [ | split ] ] ]; intros Hpath.
  - eapply (claimed_by_unconditional_rule settings p path 0 _ _ Hp);
      [ lia | lia | exact Hpath | reflexivity | reflexivity | reflexivity | ].
    rewrite Hp. refine (proj2 _ Hpath). extension_pattern.
  - eapply (claimed_by_unconditional_rule settings p path 3 _ _ Hp);
      [ lia | lia | exact Hpath | reflexivity | reflexivity | reflexivity | ].
    rewrite Hp. refine (proj2 _ Hpath). extension_pattern.
  - eapply (claimed_by_unconditional_rule settings p path 4 _ _ Hp);
      [ lia | lia | exact Hpath | reflexivity | reflexivity | reflexivity | ].
    rewrite Hp. refine (proj2 _ Hpath). extension_pattern.
  - eapply (claimed_by_unconditional_rule settings p path 5 _ _ Hp);
      [ lia | lia | exact Hpath | reflexivity | reflexivity | reflexivity | ].
    rewrite Hp. refine (proj2 _ Hpath). extension_pattern.
  - eapply (claimed_by_unconditional_rule settings p path 6 _ _ Hp);
      [ lia | lia | exact Hpath | reflexivity | reflexivity | reflexivity | ].
    rewrite Hp. refine (proj2 _ Hpath). extension_pattern.
Qed.

(* ------------------------------------------------------------------------- *)
(** * The main export *)

Ltac run_loadSettings :=
  unfold result, world_after, getBasicTypeScriptReactWebAppConfiguration,
    buildWebpackConfiguration, loadSettings, bind, process_env_NODE_ENV, console_log,
    process_cwd, get_member, completion, ret, throw, or_else;
  cbn [fst snd NODE_ENV cwd console].

Lemma nothing_to_read_dec (argv : value) (w : World) :
  {(argv = VUndefined \/ argv = VNull) /\ (NODE_ENV w = None \/ NODE_ENV w = Some "")}
  + {~ ((argv = VUndefined \/ argv = VNull) /\ (NODE_ENV w = None \/ NODE_ENV w = Some ""))}.
Proof.
  destruct (NODE_ENV w) as [v | ]; [ destruct (String.eqb_spec v "") as [-> | Hv] | ].
  - destruct argv; first [ left; split; auto; fail | right; intros [[H | H] _]; discriminate H ].
  - right. intros [_ [H | H]]; [ discriminate H | ]. injection H as H. contradiction.
  - destruct argv; first [ left; split; auto; fail | right; intros [[H | H] _]; discriminate H ].
Qed.

Lemma main_export_throws
    (path_join : string -> string -> string) (env argv : value) (w : World) :
  argv = VUndefined \/ argv = VNull ->
  NODE_ENV w = None \/ NODE_ENV w = Some "" ->
  getBasicTypeScriptReactWebAppConfiguration path_join env argv w
  = (Throw (TypeError "Cannot read properties of undefined or null"),
     {| NODE_ENV := NODE_ENV w;
        cwd := cwd w;
        console :=
          console w
          ++ [LogArguments env argv
                (match NODE_ENV w with Some v => VStr v | None => VUndefined end)] |}).
Proof.
  intros Hargv Henv. run_loadSettings.
  destruct Hargv as [-> | ->]; destruct Henv as [-> | ->]; reflexivity.
Qed.

Lemma main_export_returns_otherwise
    (path_join : string -> string -> string) (env argv : value) (w : World) :
  ~ ((argv = VUndefined \/ argv = VNull) /\ (NODE_ENV w = None \/ NODE_ENV w = Some "")) ->
  exists config,
    result (getBasicTypeScriptReactWebAppConfiguration path_join env argv) w = Normal config.
Proof.
  intros H. run_loadSettings.
  destruct (NODE_ENV w) as [v | ]; [ destruct (String.eqb_spec v "") as [-> | Hv] | ].
  - destruct argv; cbn; try (eexists; reflexivity); exfalso; apply H; auto.
  - cbn [truthy]. apply String.eqb_neq in Hv. rewrite Hv. cbn. eexists. reflexivity.
  - destruct argv; cbn; try (eexists; reflexivity); exfalso; apply H; auto.
Qed.

(** X6: in a process that has a working directory (which is what a [World]
    describes) the main export fails in one situation only: [argv] is
    [undefined] or [null] while [NODE_ENV] is unset or empty, when reading
    [argv.mode] throws.  A non-empty [NODE_ENV] keeps [argv] from being read at all.
    When it throws, the arguments have been logged and nothing else. *)
Theorem main_export_throws_only_without_argv_and_NODE_ENV
    (path_join : string -> string -> string) (env argv : value) (w : World) :
  ((exists e, result (getBasicTypeScriptReactWebAppConfiguration path_join env argv) w = Throw e)
   <-> (argv = VUndefined \/ argv = VNull) /\ (NODE_ENV w = None \/ NODE_ENV w = Some ""))
  /\ ((exists config,
        result (getBasicTypeScriptReactWebAppConfiguration path_join env argv) w = Normal config)
      <-> ~ ((argv = VUndefined \/ argv = VNull) /\ (NODE_ENV w = None \/ NODE_ENV w = Some "")))
  /\ (forall e,
      result (getBasicTypeScriptReactWebAppConfiguration path_join env argv) w = Throw e ->
      console (world_after (getBasicTypeScriptReactWebAppConfiguration path_join env argv) w)
      = console w ++ [LogArguments env argv
                        (match NODE_ENV w with Some v => VStr v | None => VUndefined end)]).
Proof.
  destruct (nothing_to_read_dec argv w) as [[Hargv Henv] | Hread].
  - pose proof (main_export_throws path_join env argv w Hargv Henv) as Hrun.
    unfold result, world_after. rewrite Hrun. cbn [fst snd console].
    split; [ | split ].
    + split; [ auto | intros _; eexists; reflexivity ].
    + split; [ intros [config H]; discriminate H | intros H; exfalso; apply H; auto ].
    + reflexivity.
  - destruct (main_export_returns_otherwise path_join env argv w Hread) as [config Hret].
    rewrite Hret. split; [ | split ].
    + split; [ intros [e H]; discriminate H | intros H; contradiction ].
    + split; [ intros _; exact Hread | intros _; exists config; reflexivity ].
    + intros e H. discriminate H.
Qed.

(** One run of [loadSettings] on an [argv] object: the record returned, which
    is also the record logged, and the world left behind. *)
Lemma loadSettings_run_object
    (path_join : string -> string -> string) (env : value)
    (arguments : list (string * value)) (w : World) :
  exists m,
    (m = BuildMode.development \/ m = BuildMode.production)
    /\ (m = BuildMode.production
        <-> or_else (match NODE_ENV w with Some v => VStr v | None => VUndefined end)
              (or_else (get (VObject arguments) "mode") (VStr "development"))
            = VStr "production")
    /\ let settings :=
         {| mode := m;
            paths :=
              {| entryFile := path_join (path_join (cwd w) "src") "index.ts";
                 outputPath := path_join (cwd w) "dist";
                 indexHtmlTemplate := path_join (path_join (cwd w) "src") "index.html";
                 devServerContentPath := path_join (cwd w) "dist" |};
            patterns := loadSettings_patterns;
            copyExistingFiles := None |} in
       loadSettings path_join env (VObject arguments) w
       = (Normal settings,
          {| NODE_ENV := NODE_ENV w;
             cwd := cwd w;
             console :=
               console w
               ++ [ LogArguments env (VObject arguments)
                      (match NODE_ENV w with Some v => VStr v | None => VUndefined end);
                    LogSettings settings ] |}).
Proof.
  eexists. split; [ | split ].
  2: { instantiate (1 := if strict_eq_str
                              (or_else (match NODE_ENV w with
                                        | Some v => VStr v
                                        | None => VUndefined
                                        end)
                                 (or_else (get (VObject arguments) "mode")
                                    (VStr "development"))) "production"
                         then BuildMode.production else BuildMode.development).
       match goal with |- context [strict_eq_str ?v "production"] =>
         destruct v; simpl; try (split; discriminate) end.
       destruct (String.eqb_spec s "production") as [-> | Hs]; split;
         try reflexivity; try discriminate.
       intros H. injection H as H. contradiction. }
  - match goal with |- context [if ?b then _ else _] => destruct b end; auto.
  - run_loadSettings.
    destruct (truthy match NODE_ENV w with Some v => VStr v | None => VUndefined end);
      cbn; rewrite <- app_assoc; reflexivity.
Qed.

Lemma main_export_run_object
    (path_join : string -> string -> string) (env : value)
    (arguments : list (string * value)) (w : World) :
  exists settings,
    loadSettings path_join env (VObject arguments) w
    = (Normal settings,
       {| NODE_ENV := NODE_ENV w;
          cwd := cwd w;
          console :=
            console w
            ++ [ LogArguments env (VObject arguments)
                   (match NODE_ENV w with Some v => VStr v | None => VUndefined end);
                 LogSettings settings ] |})
    /\ getBasicTypeScriptReactWebAppConfiguration path_join env (VObject arguments) w
       = (Normal (object_literal
                    (buildWebpackConfiguration_members settings
                       (VObject [("plugins",
                                  VArray [ createEnvironmentVariablesPlugin settings;
                                           createHtmlBundleInjectionPlugin settings ])]))),
          {| NODE_ENV := NODE_ENV w;
             cwd := cwd w;
             console :=
               console w
               ++ [ LogArguments env (VObject arguments)
                      (match NODE_ENV w with Some v => VStr v | None => VUndefined end);
                    LogSettings settings;
                    LogWebpackOutput ] |}).
Proof.
  destruct (loadSettings_run_object path_join env arguments w) as [m [_ [_ Hrun]]].
  cbv zeta in Hrun. eexists. split; [ exact Hrun | ].
  unfold getBasicTypeScriptReactWebAppConfiguration, bind. rewrite Hrun.
  rewrite buildWebpackConfiguration_run.
  cbn [NODE_ENV cwd console]. rewrite <- app_assoc. reflexivity.
Qed.

(** Names the record [loadSettings] returned and the plugin list built from
    it, and runs the main export on them. *)
Ltac run_main_export path_join env arguments w m Hm settings plugin_list Hmain :=
  let Hrun := fresh "Hrun" in
  destruct (loadSettings_run_object path_join env arguments w) as [m [Hm [_ Hrun]]];
  cbv zeta in Hrun;
  match type of Hrun with _ = (Normal ?s, _) => set (settings := s) in * end;
  set (plugin_list := VArray [ createEnvironmentVariablesPlugin settings;
                               createHtmlBundleInjectionPlugin settings ]);
  assert (Hmain : result (getBasicTypeScriptReactWebAppConfiguration path_join env
                            (VObject arguments)) w
                  = Normal (object_literal
                              (buildWebpackConfiguration_members settings
                                 (VObject [("plugins", plugin_list)]))))
    by (unfold result, getBasicTypeScriptReactWebAppConfiguration, bind;
        rewrite Hrun, buildWebpackConfiguration_run; reflexivity).

(** X7: through the main export the plugin list always has exactly two
    entries: [loadSettings] never fills [copyExistingFiles], so no [env] or
    [argv] makes the copy plugin appear.  The environment plugin reads the
    relative file [./.env.<mode>] for the mode the configuration carries, the
    HTML plugin the template [src/index.html] under the working directory. *)
Theorem main_export_never_adds_the_copy_plugin
    (path_join : string -> string -> string) (env : value)
    (arguments : list (string * value)) (w : World) :
  exists config m,
    result (getBasicTypeScriptReactWebAppConfiguration path_join env (VObject arguments)) w
    = Normal config
    /\ (m = BuildMode.development \/ m = BuildMode.production)
    /\ get config "mode" = VStr m
    /\ get config "plugins"
       = VArray [
           VNew Dotenv [
             VObject [("path", VStr ("./.env." ++ m)); ("systemvars", VBool true)]];
           VNew HtmlWebpackPlugin [
             VObject [("template",
                       VStr (path_join (path_join (cwd w) "src") "index.html"))]] ].
Proof.
  run_main_export path_join env arguments w m Hm settings plugin_list Hmain.
  eexists. exists m. split; [ exact Hmain | ].
  split; [ exact Hm | ].
  split.
  - rewrite (@configuration_get_slice settings plugin_list (configureBuildMode settings) "mode");
      [ reflexivity | simpl; tauto | simpl; auto ].
  - rewrite configuration_plugins. reflexivity.
Qed.

(** X8: the configuration the main export returns depends on [NODE_ENV], the
    working directory and [argv.mode], on nothing else: not on [env], not on
    any other key of [argv], not on what was logged before; and with a
    non-empty [NODE_ENV] not on [argv.mode] either. *)
Theorem main_export_reads_only_NODE_ENV_cwd_and_argv_mode
    (path_join : string -> string -> string) (env1 env2 : value)
    (arguments1 arguments2 : list (string * value)) (w1 w2 : World) :
  NODE_ENV w1 = NODE_ENV w2 ->
  cwd w1 = cwd w2 ->
  get (VObject arguments1) "mode" = get (VObject arguments2) "mode"
  \/ (exists v, NODE_ENV w1 = Some v /\ v <> "") ->
  result (getBasicTypeScriptReactWebAppConfiguration path_join env1 (VObject arguments1)) w1
  = result (getBasicTypeScriptReactWebAppConfiguration path_join env2 (VObject arguments2)) w2.
Proof.
  intros Henv Hcwd Hmode. run_loadSettings.
  rewrite <- Henv, <- Hcwd.
  destruct Hmode as [Hmode | [v [Hv Hne]]].
  - rewrite <- Hmode.
    destruct (truthy match NODE_ENV w1 with Some v => VStr v | None => VUndefined end);
      reflexivity.
  - rewrite Hv. cbn [truthy]. apply String.eqb_neq in Hne. rewrite Hne. reflexivity.
Qed.

(** X8 at concrete inputs: [--env production] and a stray [argv] key change
    nothing. *)
Lemma main_export_reads_only_NODE_ENV_cwd_and_argv_mode_witness :
  result (getBasicTypeScriptReactWebAppConfiguration posix_join
            (VObject [("production", VBool true)])
            (VObject [("mode", VStr "development"); ("watch", VBool true)]))
         (sample_world None)
  = result (getBasicTypeScriptReactWebAppConfiguration posix_join VUndefined
              (VObject [("mode", VStr "development")]))
           (sample_world None).
Proof.
  apply main_export_reads_only_NODE_ENV_cwd_and_argv_mode;
    [ reflexivity | reflexivity | left; reflexivity ].
Defined.

(** X9: the paths of the configuration follow the working directory: the
    entry is [src/index.ts] under it, the bundle goes to [dist] under it as
    [bundle.js] served from [/], and a development server, when one is
    configured, serves that same output directory. *)
Theorem main_export_paths_follow_cwd
    (path_join : string -> string -> string) (env : value)
    (arguments : list (string * value)) (w : World) :
  exists config,
    result (getBasicTypeScriptReactWebAppConfiguration path_join env (VObject arguments)) w
    = Normal config
    /\ get config "entry" = VStr (path_join (path_join (cwd w) "src") "index.ts")
    /\ get config "output"
       = VObject [("path", VStr (path_join (cwd w) "dist"));
                  ("filename", VStr "bundle.js");
                  ("publicPath", VStr "/")]
    /\ (get config "devServer" = VUndefined
        \/ at_path config [Key "devServer"; Key "contentBase"]
           = at_path config [Key "output"; Key "path"]).
Proof.
  run_main_export path_join env arguments w m Hm settings plugin_list Hmain.
  eexists. split; [ exact Hmain | ].
  split; [ | split ].
  - rewrite (@configuration_get_slice settings plugin_list
               (configureAppEntryPoints settings) "entry");
      [ reflexivity | simpl; tauto | simpl; auto ].
  - rewrite (@configuration_get_slice settings plugin_list
               (configureBundleOutput settings) "output");
      [ reflexivity | simpl; tauto | simpl; auto ].
  - cbn [at_path].
    rewrite (@configuration_get_slice settings plugin_list
               (configureBundleOutput settings) "output");
      [ | simpl; tauto | simpl; auto ].
    rewrite (@configuration_get_slice settings plugin_list
               (configureDevelopmentServer settings) "devServer").
    2: { simpl; tauto. }
    2: { unfold configureDevelopmentServer.
         match goal with |- context [if ?b then _ else _] => destruct b end; simpl; auto. }
    unfold configureDevelopmentServer, configureBundleOutput. subst settings. cbn [mode paths].
    destruct (m =? BuildMode.development); [ right | left ]; reflexivity.
Qed.

(** X10: a run of the main export on an [argv] object writes exactly three
    console records after whatever was there: the arguments received, the
    settings record, the output banner.  The record logged is the one
    returned by [loadSettings] and the one the configuration is built from.
    [NODE_ENV] and the working directory are left as they were. *)
Theorem main_export_logs_three_records
    (path_join : string -> string -> string) (env : value)
    (arguments : list (string * value)) (w : World) :
  exists settings config,
    result (loadSettings path_join env (VObject arguments)) w = Normal settings
    /\ result (getBasicTypeScriptReactWebAppConfiguration path_join env (VObject arguments)) w
       = Normal config
    /\ result (buildWebpackConfiguration settings) w = Normal config
    /\ console (world_after
                  (getBasicTypeScriptReactWebAppConfiguration path_join env
                     (VObject arguments)) w)
       = console w
         ++ [ LogArguments env (VObject arguments)
                (match NODE_ENV w with Some v => VStr v | None => VUndefined end);
              LogSettings settings;
              LogWebpackOutput ]
    /\ NODE_ENV (world_after
                   (getBasicTypeScriptReactWebAppConfiguration path_join env
                      (VObject arguments)) w) = NODE_ENV w
    /\ cwd (world_after
              (getBasicTypeScriptReactWebAppConfiguration path_join env
                 (VObject arguments)) w) = cwd w.
Proof.
  destruct (main_export_run_object path_join env arguments w) as [settings [Hload Hmain]].
  exists settings. eexists.
  unfold result, world_after. rewrite Hload, Hmain, buildWebpackConfiguration_run.
  cbn [fst snd NODE_ENV cwd console].
  assert (Hcopy : copyExistingFiles settings = None).
  { pose proof (loadSettings_returns path_join env arguments w) as Hret.
    unfold result in Hret. rewrite Hload in Hret. cbn [fst] in Hret.
    injection Hret as ->. reflexivity. }
  unfold configurePlugins, createFileCopyPlugin. rewrite Hcopy.
  repeat split.
Qed.

(* ------------------------------------------------------------------------- *)
(** * What the mode switches *)

(** X11: in a configuration the aggregator returned, every
    development-only feature hangs on the one test
    [settings.mode === 'development'], so they are on or off together:
    the development server, [devtool], the dependency source-map rule,
    Babel's [sourceMaps] in both language rules and the React development
    diagnostics.  Purging is on only when they are all off; for a mode that
    is neither [development] nor [production] everything is off, purging
    included. *)
Theorem development_features_switch_together
    (settings : ISettings) (w : World) (config : value) :
  result (buildWebpackConfiguration settings) w = Normal config ->
  exists stylesRule javascriptRule typescriptRule,
    firstn 3 (exclusive_rules config) = [stylesRule; javascriptRule; typescriptRule]
    /\ let dev := mode settings =? BuildMode.development in
       let purge :=
         at_path stylesRule
           [Key "use"; Idx 2; Key "options"; Key "postcssOptions"; Key "plugins"; Idx 2;
            Idx 1; Key "purge"; Key "enabled"] in
       truthy (get config "devServer") = dev
       /\ truthy (get config "devtool") = dev
       /\ existsb is_source_map_rule (module_rules config) = dev
       /\ at_path javascriptRule [Key "use"; Idx 0; Key "options"; Key "sourceMaps"]
          = VBool dev
       /\ at_path typescriptRule [Key "use"; Idx 0; Key "options"; Key "sourceMaps"]
          = VBool dev
       /\ at_path typescriptRule
            [Key "use"; Idx 0; Key "options"; Key "presets"; Idx 1; Idx 1; Key "development"]
          = VBool dev
       /\ (purge = VBool true -> dev = false)
       /\ (mode settings <> BuildMode.development ->
           mode settings <> BuildMode.production ->
           dev = false /\ purge = VBool false).
Proof.
  intros Hret. built Hret p Hplugins. do 3 eexists.
  rewrite configuration_exclusive_rules, configuration_module_rules.
  split; [ reflexivity | ]. cbv zeta.
  rewrite (@configuration_get_slice settings p (configureDevelopmentServer settings) "devServer").
  2: { simpl; tauto. }
  2: { unfold configureDevelopmentServer.
       destruct (mode settings =? BuildMode.development); simpl; auto. }
  rewrite (@configuration_get_slice settings p (configureSourceMapsGeneration settings) "devtool");
    [ | simpl; tauto | simpl; auto ].
  unfold configureDevelopmentServer, configureSourceMapsGeneration.
  split; [ | split; [ | split; [ | split; [ | split; [ | split; [ | split ] ] ] ] ] ].
  - destruct (mode settings =? BuildMode.development); reflexivity.
  - destruct (mode settings =? BuildMode.development); reflexivity.
  - destruct (mode settings =? BuildMode.development); reflexivity.
  - reflexivity.
  - reflexivity.
  - reflexivity.
  - cbn. intros H. injection H as H. apply String.eqb_eq in H.
    apply String.eqb_neq. rewrite H. discriminate.
  - intros Hdev Hprod. apply String.eqb_neq in Hdev, Hprod.
    cbn. rewrite Hdev, Hprod. split; reflexivity.
Qed.

(** X12: through the main export the mode is always one of the two build
    modes, so the configuration is one of two profiles and never a mixture:
    either development (server, [devtool] and source-map rule on, purging
    off) or production (all of them off, purging on). *)
Theorem main_export_builds_one_of_two_profiles
    (path_join : string -> string -> string) (env : value)
    (arguments : list (string * value)) (w : World) :
  exists config stylesRule,
    result (getBasicTypeScriptReactWebAppConfiguration path_join env (VObject arguments)) w
    = Normal config
    /\ nth_error (exclusive_rules config) 0 = Some stylesRule
    /\ let purge :=
         at_path stylesRule
           [Key "use"; Idx 2; Key "options"; Key "postcssOptions"; Key "plugins"; Idx 2;
            Idx 1; Key "purge"; Key "enabled"] in
       (get config "mode" = VStr BuildMode.development
        /\ truthy (get config "devServer") = true
        /\ get config "devtool" = VStr "inline-cheap-module-source-map"
        /\ existsb is_source_map_rule (module_rules config) = true
        /\ purge = VBool false)
       \/ (get config "mode" = VStr BuildMode.production
           /\ get config "devServer" = VUndefined
           /\ get config "devtool" = VBool false
           /\ existsb is_source_map_rule (module_rules config) = false
           /\ purge = VBool true).
Proof.
  run_main_export path_join env arguments w m Hm settings plugin_list Hmain.
  do 2 eexists. split; [ exact Hmain | ].
  rewrite configuration_exclusive_rules, configuration_module_rules.
  split; [ reflexivity | ]. cbv zeta.
  rewrite (@configuration_get_slice settings plugin_list (configureBuildMode settings) "mode");
    [ | simpl; tauto | simpl; auto ].
  rewrite (@configuration_get_slice settings plugin_list
             (configureDevelopmentServer settings) "devServer").
  2: { simpl; tauto. }
  2: { unfold configureDevelopmentServer.
       destruct (mode settings =? BuildMode.development); simpl; auto. }
  rewrite (@configuration_get_slice settings plugin_list
             (configureSourceMapsGeneration settings) "devtool");
    [ | simpl; tauto | simpl; auto ].
  subst settings. destruct Hm as [-> | ->]; [ left | right ]; repeat split.
Qed.

(** X13: which fields of the settings record each section of the
    configuration reads.  [node], [resolve] and [stats] read none; [entry]
    and [output] read one path each; [mode] and [devtool] read the mode;
    [module] reads the mode and the patterns; [devServer] the mode and the
    content path; [plugins] the mode, the template path and the copy
    instructions.  Two records that agree on the fields a section reads get
    the same section, whenever the aggregator returns for both. *)
Theorem sections_read_only_their_fields (a b : ISettings) (w : World) (ca cb : value) :
  result (buildWebpackConfiguration a) w = Normal ca ->
  result (buildWebpackConfiguration b) w = Normal cb ->
  get ca "node" = get cb "node"
  /\ get ca "resolve" = get cb "resolve"
  /\ get ca "stats" = get cb "stats"
  /\ (entryFile (paths a) = entryFile (paths b) -> get ca "entry" = get cb "entry")
  /\ (outputPath (paths a) = outputPath (paths b) -> get ca "output" = get cb "output")
  /\ (mode a = mode b ->
      get ca "mode" = get cb "mode" /\ get ca "devtool" = get cb "devtool")
  /\ (mode a = mode b -> patterns a = patterns b -> get ca "module" = get cb "module")
  /\ (mode a = mode b ->
      devServerContentPath (paths a) = devServerContentPath (paths b) ->
      get ca "devServer" = get cb "devServer")
  /\ (mode a = mode b ->
      indexHtmlTemplate (paths a) = indexHtmlTemplate (paths b) ->
      copyExistingFiles a = copyExistingFiles b ->
      get ca "plugins" = get cb "plugins").
Proof.
  intros Ha Hb. built Ha pa Hpa. built Hb pb Hpb.
  assert (Hresolve : forall s q,
             get (object_literal
                    (buildWebpackConfiguration_members s (VObject [("plugins", q)])))
                 "resolve"
             = VObject [("extensions", VArray [VStr ".ts"; VStr ".tsx"; VStr "..."]);
                        ("fallback", VObject [("fs", VBool false); ("path", VBool false)])]).
  { intros s q.
    rewrite (@configuration_get_slice s q
               (VObject [("resolve",
                          object_literal [ Spread (configureSupportedFileExtensions s);
                                           Spread (configureNodeJsFallbacks s) ])])
               "resolve");
      [ reflexivity | simpl; tauto | simpl; auto ]. }
  assert (Hslice : forall (builder : ISettings -> value) (k : string) s q,
             In (builder s) (top_level_slices s (VObject [("plugins", q)])) ->
             In k (own_keys (builder s)) ->
             get (object_literal
                    (buildWebpackConfiguration_members s (VObject [("plugins", q)]))) k
             = get (builder s) k).
  { intros builder k s q. apply configuration_get_slice. }
  assert (Hds : forall s, own_keys (configureDevelopmentServer s) = ["devServer"]).
  { intros s. unfold configureDevelopmentServer.
    destruct (mode s =? BuildMode.development); reflexivity. }
  split; [ | split; [ | split; [ | split; [ | split; [ | split; [ | split; [ | split ] ] ] ] ] ] ].
  - rewrite !(Hslice configureNodeJsBasicPolyfills "node") by (simpl; tauto). reflexivity.
  - rewrite !Hresolve. reflexivity.
  - rewrite !(Hslice configureLogLevel "stats") by (simpl; tauto). reflexivity.
  - intros H. rewrite !(Hslice configureAppEntryPoints "entry") by (simpl; tauto).
    unfold configureAppEntryPoints. rewrite H. reflexivity.
  - intros H. rewrite !(Hslice configureBundleOutput "output") by (simpl; tauto).
    unfold configureBundleOutput. rewrite H. reflexivity.
  - intros H. rewrite !(Hslice configureBuildMode "mode") by (simpl; tauto).
    rewrite !(Hslice configureSourceMapsGeneration "devtool") by (simpl; tauto).
    unfold configureBuildMode, configureSourceMapsGeneration. rewrite H. split; reflexivity.
  - intros Hm Hp. rewrite !(Hslice configureLoaders "module") by (simpl; tauto).
    unfold configureLoaders, createSourceMapsLoader, createStylesLoader, createLanguageLoader,
      createImagesLoader, createFontsLoader, createWasmLoader, createUnityLoader.
    rewrite Hm, Hp. reflexivity.
  - intros Hm Hc.
    rewrite !(Hslice configureDevelopmentServer "devServer")
      by (first [ rewrite Hds; simpl; tauto | simpl; tauto ]).
    unfold configureDevelopmentServer. rewrite Hm, Hc. reflexivity.
  - intros Hm Ht Hc. rewrite !configuration_plugins.
    unfold configurePlugins, createEnvironmentVariablesPlugin,
      createHtmlBundleInjectionPlugin, createFileCopyPlugin in Hpa, Hpb.
    rewrite Hm, Ht, Hc in Hpa. rewrite Hpa in Hpb. injection Hpb as Hpb. exact Hpb.
Qed.

(* ------------------------------------------------------------------------- *)
(** * Dispatch at concrete paths *)

Example uppercase_extension : ends_with_ci ".png" "assets/LOGO.PNG".
Proof. exists "assets/LOGO", ".PNG". split; reflexivity. Qed.

(** X2 at a concrete input: a stylesheet is picked by the styles rule. *)
Lemma exclusive_rules_apply_to_disjoint_paths_witness :
  exists config,
    result (buildWebpackConfiguration (sample_settings "production" None))
           (sample_world None) = Normal config
    /\ [ Bundler.first_match (exclusive_rules config) "/srv/app/src/Main.CSS" ]
       = map Some (createStylesLoader (sample_settings "production" None)).
Proof.
  eexists. split; [ reflexivity | ].
  destruct (exclusive_rules_apply_to_disjoint_paths
              (sample_settings "production" None) (sample_world None) _ eq_refl eq_refl)
    as [_ Hpick].
  rewrite (Hpick "/srv/app/src/Main.CSS"
             (nth 0 (createStylesLoader (sample_settings "production" None)) VUndefined)).
  - reflexivity.
  - left. reflexivity.
  - reflexivity.
Defined.

(** X3 at a concrete input: a script of a dependency, in development mode. *)
Lemma dependency_scripts_are_claimed_by_no_rule_witness :
  exists config,
    result (buildWebpackConfiguration (sample_settings "development" None))
           (sample_world None) = Normal config
    /\ Bundler.claiming_rules (module_rules config) "/srv/app/node_modules/react/index.js"
       = [].
Proof.
  eexists. split; [ reflexivity | ].
  apply (dependency_scripts_are_claimed_by_no_rule
           (sample_settings "development" None) (sample_world None) _ eq_refl eq_refl).
  - left. exists ".js". split; [ left; reflexivity | ].
    exists "/srv/app/node_modules/react/index", ".js". split; reflexivity.
  - exists "/srv/app/", "/react/index.js". reflexivity.
Defined.

(** X4 at a concrete input: a component of the application. *)
Lemma own_scripts_are_claimed_by_their_language_rule_witness :
  exists config,
    result (buildWebpackConfiguration (sample_settings "development" None))
           (sample_world None) = Normal config
    /\ Bundler.claiming_rules (module_rules config) "/srv/app/src/App.TSX"
       = [ nth 1 (createLanguageLoader (sample_settings "development" None)) VUndefined ].
Proof.
  eexists. split; [ reflexivity | ].
  destruct (own_scripts_are_claimed_by_their_language_rule
              (sample_settings "development" None) (sample_world None) _ eq_refl eq_refl)
    as [javascriptRule [typescriptRule [Hrules Hclaim]]].
  injection Hrules as _ <-.
  apply (Hclaim "/srv/app/src/App.TSX").
  - intros H. apply search_lit in H. discriminate H.
  - exists ".tsx". split; [ right; left; reflexivity | ].
    exists "/srv/app/src/App", ".TSX". split; reflexivity.
Defined.

(** X5 at a concrete input: a stylesheet shipped by a dependency. *)
Lemma styles_and_assets_are_claimed_everywhere_witness :
  exists config,
    result (buildWebpackConfiguration (sample_settings "production" None))
           (sample_world None) = Normal config
    /\ Bundler.claiming_rules (module_rules config) "/srv/app/node_modules/lib/theme.css"
       = createStylesLoader (sample_settings "production" None).
Proof.
  eexists. split; [ reflexivity | ].
  destruct (styles_and_assets_are_claimed_everywhere
              (sample_settings "production" None) (sample_world None) _ eq_refl eq_refl)
    as [_ Hclaim].
  apply (Hclaim "/srv/app/node_modules/lib/theme.css").
  exists ".css". split; [ left; reflexivity | ].
  exists "/srv/app/node_modules/lib/theme", ".css". split; reflexivity.
Defined.

(** X11 at a concrete input: a record whose mode is neither of the two has
    every development feature and purging off. *)
Lemma development_features_switch_together_witness :
  exists config,
    result (buildWebpackConfiguration (sample_settings "staging" None))
           (sample_world None) = Normal config
    /\ truthy (get config "devServer") = false
    /\ truthy (get config "devtool") = false
    /\ existsb is_source_map_rule (module_rules config) = false.
Proof.
  eexists. split; [ reflexivity | ].
  destruct (development_features_switch_together
              (sample_settings "staging" None) (sample_world None) _ eq_refl)
    as [stylesRule [javascriptRule [typescriptRule [_ Hswitch]]]].
  cbv zeta in Hswitch.
  destruct Hswitch as [Hserver [Hdevtool [Hrule _]]].
  split; [ exact Hserver | split; [ exact Hdevtool | exact Hrule ] ].
Defined.

(** X13 at concrete inputs: two records that differ in their copy
    instructions only have the same [module] section. *)
Lemma sections_read_only_their_fields_witness :
  exists ca cb,
    result (buildWebpackConfiguration (sample_settings "production" None))
           (sample_world None) = Normal ca
    /\ result (buildWebpackConfiguration
                 (sample_settings "production"
                    (Some [ {| to := "assets"; from := "public/assets" |} ])))
              (sample_world None) = Normal cb
    /\ get ca "module" = get cb "module".
Proof.
  do 2 eexists. split; [ reflexivity | split; [ reflexivity | ] ].
  destruct (sections_read_only_their_fields
              (sample_settings "production" None)
              (sample_settings "production"
                 (Some [ {| to := "assets"; from := "public/assets" |} ]))
              (sample_world None) _ _ eq_refl eq_refl)
    as [_ [_ [_ [_ [_ [_ [Hmodule _]]]]]]].
  apply Hmodule; reflexivity.
Defined.

(** X6 at concrete inputs: without [argv], [NODE_ENV=production] is enough
    for the export to return, and an unset [NODE_ENV] makes it throw. *)
Lemma main_export_throws_only_without_argv_and_NODE_ENV_witness :
  (exists config,
      result (getBasicTypeScriptReactWebAppConfiguration posix_join VUndefined VUndefined)
             (sample_world (Some "production")) = Normal config)
  /\ (exists e,
      result (getBasicTypeScriptReactWebAppConfiguration posix_join VUndefined VUndefined)
             (sample_world None) = Throw e).
Proof.
  split.
  - apply (proj1 (proj2 (main_export_throws_only_without_argv_and_NODE_ENV
                           posix_join VUndefined VUndefined
                           (sample_world (Some "production"))))).
    intros [_ [H | H]]; discriminate H.
  - apply (proj1 (main_export_throws_only_without_argv_and_NODE_ENV
                    posix_join VUndefined VUndefined (sample_world None))).
    split; left; reflexivity.
Defined.
